(** * Adafruit IO / BMP280 telemetry uplink (pico_w/adafruit_io_bmp280)

    A shallow embedding of [adafruit_io_bmp280.c]: the fixed-point
    compensation routines of the BMP280, the composition of the HTTP
    request, and the callback-driven state machine that posts one value
    over an lwIP [altcp] TLS connection.

    C integers are [Z] with the wrap-around of their width written out.
    The lwIP/mbedTLS/SDK calls are external: their results are inputs of
    the functions that make them, and the calls made are recorded in a
    trace. Console output is left out. *)

From Stdlib Require Import ZArith Lia List String Ascii Bool DecimalString.
Import ListNotations.

Local Open Scope Z_scope.

(** ** Fixed-width integers *)

Module Int.

(** Conversion to [int32_t]: two's complement wrap-around. *)
Definition sint32 (z : Z) : Z := (z + 2147483648) mod 4294967296 - 2147483648.

(** Conversion to [uint32_t]. *)
Definition uint32 (z : Z) : Z := z mod 4294967296.

(** Conversion to [u8_t]. *)
Definition uint8 (z : Z) : Z := z mod 256.

(** [int32_t] arithmetic. *)
Definition add32 (a b : Z) : Z := sint32 (a + b).
Definition sub32 (a b : Z) : Z := sint32 (a - b).
Definition mul32 (a b : Z) : Z := sint32 (a * b).
Definition shl32 (a n : Z) : Z := sint32 (Z.shiftl a n).
(** [>>] on a signed operand is the arithmetic shift. *)
Definition sar32 (a n : Z) : Z := sint32 (Z.shiftr a n).

(** [uint32_t] arithmetic. *)
Definition usub32 (a b : Z) : Z := uint32 (a - b).
Definition umul32 (a b : Z) : Z := uint32 (a * b).
Definition ushl32 (a n : Z) : Z := uint32 (Z.shiftl a n).
Definition ushr32 (a n : Z) : Z := Z.shiftr (uint32 a) n.

(** [/] on [uint32_t]: undefined, here [None], when the divisor is zero. *)
Definition udiv32 (a b : Z) : option Z :=
  if uint32 b =? 0 then None else Some (uint32 a / uint32 b).

Definition in_sint32 (z : Z) : Prop := -2147483648 <= z <= 2147483647.

End Int.
Import Int.

(** ** Compensation engine *)

Record bmp280_calib_param : Type := mk_calib {
  dig_t1 : Z;  (* uint16_t *)
  dig_t2 : Z;  (* int16_t *)
  dig_t3 : Z;
  dig_p1 : Z;  (* uint16_t *)
  dig_p2 : Z;
  dig_p3 : Z;
  dig_p4 : Z;
  dig_p5 : Z;
  dig_p6 : Z;
  dig_p7 : Z;
  dig_p8 : Z;
  dig_p9 : Z
}.

(** [bmp280_convert]: the fine-temperature intermediate. *)
Definition bmp280_convert (temp : Z) (params : bmp280_calib_param) : Z :=
  let var1 :=
    sar32 (mul32 (sub32 (sar32 temp 3) (shl32 (dig_t1 params) 1))
                 (dig_t2 params)) 11 in
  let d := sub32 (sar32 temp 4) (dig_t1 params) in
  let var2 :=
    sar32 (mul32 (sar32 (mul32 d d) 12) (dig_t3 params)) 14 in
  add32 var1 var2.

(** [bmp280_convert_temp]: temperature in hundredths of a degree. *)
Definition bmp280_convert_temp (temp : Z) (params : bmp280_calib_param) : Z :=
  let t_fine := bmp280_convert temp params in
  sar32 (add32 (mul32 t_fine 5) 128) 8.

(** The value of [var1] at the test [if (var1 == 0)] of
    [bmp280_convert_pressure], and of [var2] at the same point. *)
Definition pressure_var1 (temp : Z) (params : bmp280_calib_param) : Z :=
  let t_fine := bmp280_convert temp params in
  let var1 := sub32 (sar32 t_fine 1) 64000 in
  let q := mul32 (sar32 var1 2) (sar32 var1 2) in
  let var1 :=
    sar32 (add32 (sar32 (mul32 (dig_p3 params) (sar32 q 13)) 3)
                 (sar32 (mul32 (dig_p2 params) var1) 1)) 18 in
  sar32 (mul32 (add32 32768 var1) (dig_p1 params)) 15.

Definition pressure_var2 (temp : Z) (params : bmp280_calib_param) : Z :=
  let t_fine := bmp280_convert temp params in
  let var1 := sub32 (sar32 t_fine 1) 64000 in
  let q := mul32 (sar32 var1 2) (sar32 var1 2) in
  let var2 := mul32 (sar32 q 11) (dig_p6 params) in
  let var2 := add32 var2 (shl32 (mul32 var1 (dig_p5 params)) 1) in
  add32 (sar32 var2 2) (shl32 (dig_p4 params) 16).

(** The tail of [bmp280_convert_pressure], after the quotient is known. *)
Definition pressure_finish (converted : Z) (params : bmp280_calib_param) : Z :=
  let c3 := ushr32 converted 3 in
  let var1 :=
    sar32 (mul32 (dig_p9 params) (sint32 (ushr32 (umul32 c3 c3) 13))) 12 in
  let var2 :=
    sar32 (mul32 (sint32 (ushr32 converted 2)) (dig_p8 params)) 13 in
  let converted :=
    uint32 (add32 (sint32 converted)
                  (sar32 (add32 (add32 var1 var2) (dig_p7 params)) 4)) in
  sint32 converted.

(** [bmp280_convert_pressure]: [None] stands for a division by zero. *)
Definition bmp280_convert_pressure
    (pressure temp : Z) (params : bmp280_calib_param) : option Z :=
  let var1 := pressure_var1 temp params in
  let var2 := pressure_var2 temp params in
  if var1 =? 0 then Some 0
  else
    let converted :=
      umul32 (usub32 (uint32 (sub32 1048576 pressure)) (sar32 var2 12)) 3125 in
    let quotient :=
      if converted <? 2147483648
      then udiv32 (ushl32 converted 1) (uint32 var1)
      else option_map (fun q => umul32 q 2) (udiv32 converted (uint32 var1)) in
    option_map (fun c => pressure_finish c params) quotient.

(** The calibration set and raw sample of the sensor's data sheet. *)
Definition datasheet_params : bmp280_calib_param :=
  mk_calib 27504 26435 (-1000) 36477 (-10685) 3024 2855 140 (-7) 15500 (-14600) 6000.

Definition datasheet_raw_temp : Z := 519888.
Definition datasheet_raw_pressure : Z := 415148.

(** A calibration set whose [dig_p1] is zero: the degenerate divisor. *)
Definition degenerate_params : bmp280_calib_param :=
  mk_calib 27504 26435 (-1000) 0 (-10685) 3024 2855 140 (-7) 15500 (-14600) 6000.

(** The data sheet's calibration set with [dig_t3] cleared. *)
Definition datasheet_params_t3_0 : bmp280_calib_param :=
  mk_calib 27504 26435 0 36477 (-10685) 3024 2855 140 (-7) 15500 (-14600) 6000.

(** ** C strings *)

Definition CR : ascii := ascii_of_nat 13.
Definition LF : ascii := ascii_of_nat 10.
Definition DQUOTE : ascii := ascii_of_nat 34.
Definition crlf : string := String CR (String LF EmptyString).
Definition dquote : string := String DQUOTE EmptyString.

Definition strlen (s : string) : Z := Z.of_nat (String.length s).

(** The character at the head of a C string; the terminating NUL when the
    string is empty. *)
Definition head_char (s : string) : Z :=
  match s with
  | EmptyString => 0
  | String c _ => Z.of_nat (nat_of_ascii c)
  end.

Definition tail_chars (s : string) : string :=
  match s with
  | EmptyString => EmptyString
  | String _ r => r
  end.

(** [strncmp]: compares at most [n] characters and stops at a NUL. *)
Fixpoint strncmp (s1 s2 : string) (n : nat) : Z :=
  match n with
  | O => 0
  | S n' =>
      let c1 := head_char s1 in
      let c2 := head_char s2 in
      if c1 =? c2
      then if c1 =? 0 then 0 else strncmp (tail_chars s1) (tail_chars s2) n'
      else c1 - c2
  end.

(** A string literal that holds no NUL before its end. *)
Fixpoint no_nul (s : string) : bool :=
  match s with
  | EmptyString => true
  | String c r => negb (nat_of_ascii c =? 0)%nat && no_nul r
  end.

Definition INT_MAX : Z := 2147483647.

(** [snprintf(buf, size, ...)] once the format is expanded to [text]: the
    buffer receives at most [size - 1] characters, the result is the length
    of the whole text, or a negative value when that is no [int]. *)
Definition snprintf (size : nat) (text : string) : string * Z :=
  (substring 0 (size - 1) text,
   if strlen text <=? INT_MAX then strlen text else -1).

(** [%d]. *)
Definition fmt_d (z : Z) : string := NilZero.string_of_int (Z.to_int z).

(** ** lwIP interface *)

Inductive err_t : Type :=
| ERR_OK | ERR_MEM | ERR_BUF | ERR_TIMEOUT | ERR_RTE | ERR_INPROGRESS
| ERR_VAL | ERR_WOULDBLOCK | ERR_USE | ERR_ALREADY | ERR_ISCONN | ERR_CONN
| ERR_IF | ERR_ABRT | ERR_RST | ERR_CLSD | ERR_ARG.

Definition is_ERR_OK (e : err_t) : bool :=
  match e with ERR_OK => true | _ => false end.

Definition is_ERR_INPROGRESS (e : err_t) : bool :=
  match e with ERR_INPROGRESS => true | _ => false end.

(** A [struct altcp_tls_config *] is known by its address. *)
Definition altcp_tls_config : Type := Z.

(** The transport's side of a [struct altcp_pcb]: the callbacks registered
    on it, the poll interval and the ticks counted towards it, and the TLS
    configuration it was created from. *)
Record altcp_pcb : Type := mk_pcb {
  pcb_conf : option altcp_tls_config;
  cb_arg : bool;           (* altcp_arg: the state, or NULL *)
  cb_poll : option Z;      (* altcp_poll: http_post_poll and its interval *)
  cb_recv : bool;          (* altcp_recv: http_post_recv, or NULL *)
  cb_err : bool;           (* altcp_err: http_post_err, or NULL *)
  polltmr : Z
}.

(** The calls made to lwIP and mbedTLS, in order. [altcp_tls_free_config]
    is the interface's release of a configuration; nothing below makes
    it. *)
Inductive io_call : Type :=
| altcp_tls_create_config_client
| altcp_tls_free_config
| altcp_tls_new (conf : option altcp_tls_config)
| altcp_arg (set : bool)
| altcp_poll (interval : option Z)
| altcp_recv (set : bool)
| altcp_err (set : bool)
| mbedtls_ssl_set_hostname (hostname : string)
| dns_gethostbyname (hostname : string)
| altcp_connect (port : Z)
| altcp_write (data : string)
| altcp_recved (len : Z)
| pbuf_free
| altcp_close
| altcp_abort.

(** The calls that create, use or tear down a connection, or resolve a
    name. *)
Definition is_network_call (c : io_call) : bool :=
  match c with
  | altcp_tls_create_config_client | altcp_tls_free_config => false
  | _ => true
  end.

(** What the code takes from outside: the values of the SDK's error
    constants and of the build's macros, and what the environment answers
    to the calls of one uplink. *)
Record env : Type := mk_env {
  PICO_ERROR_GENERIC : Z;                (* constants of the SDK *)
  PICO_ERROR_TIMEOUT : Z;
  ADAFRUIT_IO_USERNAME : string;         (* macros of the build *)
  ADAFRUIT_IO_KEY : string;
  config_res : option altcp_tls_config;  (* altcp_tls_create_config_client *)
  calloc_ok : bool;                      (* calloc *)
  tls_new_ok : bool;                     (* altcp_tls_new *)
  dns_res : err_t;                       (* dns_gethostbyname *)
  connect_res : err_t;                   (* altcp_connect *)
  write_res : err_t;                     (* altcp_write *)
  close_res : err_t                      (* altcp_close *)
}.

(** ** Connection state *)

Record HTTP_POST_STATE_T : Type := mk_state {
  pcb : option altcp_pcb;
  complete : bool;
  error : Z;
  http_request : string;
  timeout : Z
}.

(** [calloc(1, sizeof(HTTP_POST_STATE_T))]. *)
Definition zeroed_state : HTTP_POST_STATE_T :=
  mk_state None false 0 EmptyString 0.

Definition set_pcb (p : option altcp_pcb) (s : HTTP_POST_STATE_T) :=
  mk_state p (complete s) (error s) (http_request s) (timeout s).
Definition set_complete (b : bool) (s : HTTP_POST_STATE_T) :=
  mk_state (pcb s) b (error s) (http_request s) (timeout s).
Definition set_error (e : Z) (s : HTTP_POST_STATE_T) :=
  mk_state (pcb s) (complete s) e (http_request s) (timeout s).
Definition set_http_request (r : string) (s : HTTP_POST_STATE_T) :=
  mk_state (pcb s) (complete s) (error s) r (timeout s).
Definition set_timeout (t : Z) (s : HTTP_POST_STATE_T) :=
  mk_state (pcb s) (complete s) (error s) (http_request s) t.

(** The global [tls_config], the connection state, and the calls made. *)
Record world : Type := mk_world {
  tls_config : option altcp_tls_config;
  state : HTTP_POST_STATE_T;
  calls : list io_call
}.

(** ** A state monad over [world] *)

Definition M (A : Type) : Type := world -> A * world.

Definition ret {A : Type} (a : A) : M A := fun w => (a, w).

Definition bind {A B : Type} (m : M A) (k : A -> M B) : M B :=
  fun w => let (a, w') := m w in k a w'.

Declare Scope uplink_scope.
Delimit Scope uplink_scope with uplink.
Notation "x <- m ;; k" := (bind m (fun x => k))
  (at level 61, m at next level, right associativity) : uplink_scope.
Notation "m ;; k" := (bind m (fun _ => k))
  (at level 61, right associativity) : uplink_scope.
Local Open Scope uplink_scope.

Definition get_state : M HTTP_POST_STATE_T := fun w => (state w, w).

Definition modify (f : HTTP_POST_STATE_T -> HTTP_POST_STATE_T) : M unit :=
  fun w => (tt, mk_world (tls_config w) (f (state w)) (calls w)).

Definition call (c : io_call) : M unit :=
  fun w => (tt, mk_world (tls_config w) (state w) (calls w ++ [c])).

(** A call that changes what is registered on [state->pcb]. *)
Definition on_pcb (f : altcp_pcb -> altcp_pcb) (c : io_call) : M unit :=
  call c ;;
  modify (fun s => set_pcb (option_map f (pcb s)) s).

Definition exec {A : Type} (m : M A) (w : world) : world := snd (m w).
Definition eval {A : Type} (m : M A) (w : world) : A := fst (m w).

(** ** Telemetry formatter and uplink state machine *)

(** A [struct pbuf] chain is known by its payload; [tot_len] is its length. *)
Definition pbuf : Type := string.
Definition tot_len (p : pbuf) : Z := strlen p.

Definition ip_addr_t : Type := Z.

(** The branch of the status check of [http_post_recv] that is taken. *)
Inductive status_class : Type :=
| Success | AuthFailure | NotFound | UnexpectedStatus.

Definition classify_status (buf : string) : status_class :=
  if (strncmp buf "HTTP/1.1 200" 12 =? 0) || (strncmp buf "HTTP/1.1 201" 12 =? 0)
  then Success
  else if strncmp buf "HTTP/1.1 401" 12 =? 0 then AuthFailure
  else if strncmp buf "HTTP/1.1 404" 12 =? 0 then NotFound
  else UnexpectedStatus.

(** The local [buf] of [http_post_recv] after [pbuf_copy_partial] and the
    terminating NUL: the first [sizeof(buf) - 1] characters of the payload. *)
Definition response_prefix (p : pbuf) : string :=
  let len := if tot_len p <? 512 - 1 then tot_len p else 512 - 1 in
  substring 0 (Z.to_nat len) p.

(** An HTTP/1.1 status line with the given status code, and what follows
    the code. *)
Definition status_line (code : Z) (rest : string) : string :=
  "HTTP/1.1 " ++ fmt_d code ++ rest.

(** What the transport or the wait loop can do to a connection. *)
Inductive event : Type :=
| ev_dns_found (ipaddr : option ip_addr_t)
| ev_connected (err : err_t)
| ev_recv (p : option pbuf)
| ev_err (err : err_t)
| ev_tick.

Inductive step : Type :=
| callback (ev : event)   (* a callback runs while the caller sleeps *)
| deadline.               (* time_reached(timeout) *)

(** What [send_to_adafruit_io] leaves behind: its result, the global
    [tls_config], the state as it was when freed, and the calls made. *)
Record outcome : Type := mk_outcome {
  returned : bool;
  tls_config_after : option altcp_tls_config;
  freed_state : option HTTP_POST_STATE_T;
  trace : list io_call
}.

(** The assignment to [state->error] in each branch of the status check;
    the last branch assigns nothing. *)
Definition record_status (e : env) (c : status_class) (error : Z) : Z :=
  match c with
  | Success => 0
  | AuthFailure => PICO_ERROR_GENERIC e
  | NotFound => PICO_ERROR_GENERIC e
  | UnexpectedStatus => error
  end.

(** The calls [http_post_close] makes on an open handle. *)
Definition teardown (e : env) : list io_call :=
  [altcp_arg false; altcp_poll None; altcp_recv false; altcp_err false; altcp_close]
  ++ (if is_ERR_OK (close_res e) then [] else [altcp_abort]).

Definition http_post_close (e : env) : M err_t :=
  modify (set_complete true) ;;
  st <- get_state ;;
  match pcb st with
  | Some _ =>
      on_pcb (fun h => mk_pcb (pcb_conf h) false (cb_poll h) (cb_recv h) (cb_err h) (polltmr h))
             (altcp_arg false) ;;
      on_pcb (fun h => mk_pcb (pcb_conf h) (cb_arg h) None (cb_recv h) (cb_err h) (polltmr h))
             (altcp_poll None) ;;
      on_pcb (fun h => mk_pcb (pcb_conf h) (cb_arg h) (cb_poll h) false (cb_err h) (polltmr h))
             (altcp_recv false) ;;
      on_pcb (fun h => mk_pcb (pcb_conf h) (cb_arg h) (cb_poll h) (cb_recv h) false (polltmr h))
             (altcp_err false) ;;
      call altcp_close ;;
      err <- (if is_ERR_OK (close_res e) then ret ERR_OK
              else call altcp_abort ;; ret ERR_ABRT) ;;
      modify (set_pcb None) ;;
      ret err
  | None => ret ERR_OK
  end.

Definition http_post_connected (e : env) (err : err_t) : M err_t :=
  if negb (is_ERR_OK err) then http_post_close e
  else
    st <- get_state ;;
    call (altcp_write (http_request st)) ;;
    if negb (is_ERR_OK (write_res e)) then http_post_close e
    else ret ERR_OK.

Definition http_post_poll (e : env) : M err_t :=
  modify (set_error (PICO_ERROR_TIMEOUT e)) ;;
  http_post_close e.

Definition http_post_err (e : env) (err : err_t) : M unit :=
  http_post_close e ;;
  modify (set_error (PICO_ERROR_GENERIC e)).

Definition http_post_recv (e : env) (p : option pbuf) : M err_t :=
  match p with
  | None =>
      modify (set_error 0) ;;
      http_post_close e
  | Some p =>
      (if tot_len p >? 0 then
         let buf := response_prefix p in
         modify (fun s => set_error (record_status e (classify_status buf) (error s)) s) ;;
         call (altcp_recved (tot_len p))
       else ret tt) ;;
      call pbuf_free ;;
      ret ERR_OK
  end.

Definition http_post_connect_to_server_ip (e : env) : M unit :=
  call (altcp_connect 443) ;;
  let err := connect_res e in
  if negb (is_ERR_OK err) then
    if is_ERR_INPROGRESS err then ret tt
    else http_post_close e ;; ret tt
  else ret tt.

Definition http_post_dns_found (e : env) (ipaddr : option ip_addr_t) : M unit :=
  match ipaddr with
  | Some _ => http_post_connect_to_server_ip e
  | None => http_post_close e ;; ret tt
  end.

Definition http_post_open (e : env) (hostname : string) : M bool :=
  fun w =>
  let conf := tls_config w in
  if tls_new_ok e then
    (call (altcp_tls_new conf) ;;
     modify (set_pcb (Some (mk_pcb conf false None false false 0))) ;;
     on_pcb (fun h => mk_pcb (pcb_conf h) true (cb_poll h) (cb_recv h) (cb_err h) (polltmr h))
            (altcp_arg true) ;;
     st <- get_state ;;
     (* the interval of altcp_poll is a u8_t *)
     on_pcb (fun h => mk_pcb (pcb_conf h) (cb_arg h) (Some (uint8 (timeout st * 2)))
                             (cb_recv h) (cb_err h) (polltmr h))
            (altcp_poll (Some (uint8 (timeout st * 2)))) ;;
     on_pcb (fun h => mk_pcb (pcb_conf h) (cb_arg h) (cb_poll h) true (cb_err h) (polltmr h))
            (altcp_recv true) ;;
     on_pcb (fun h => mk_pcb (pcb_conf h) (cb_arg h) (cb_poll h) (cb_recv h) true (polltmr h))
            (altcp_err true) ;;
     call (mbedtls_ssl_set_hostname hostname) ;;
     call (dns_gethostbyname hostname) ;;
     let err := dns_res e in
     (if is_ERR_OK err then http_post_connect_to_server_ip e
      else if negb (is_ERR_INPROGRESS err) then http_post_close e ;; ret tt
      else ret tt) ;;
     ret (is_ERR_OK err || is_ERR_INPROGRESS err)) w
  else
    (call (altcp_tls_new conf) ;;
     modify (set_pcb None) ;;
     ret false) w.

(** The transport delivers a callback to the state registered on the
    handle; one [ev_tick] is one shot of the coarse timer that
    [altcp_poll]'s interval counts, and the poll callback runs when the
    interval has elapsed. *)
Definition dispatch (e : env) (ev : event) : M unit :=
  st <- get_state ;;
  match pcb st with
  | None => ret tt
  | Some h =>
      match ev with
      | ev_dns_found ipaddr => http_post_dns_found e ipaddr
      | ev_connected err => http_post_connected e err ;; ret tt
      | ev_recv p => if cb_recv h then http_post_recv e p ;; ret tt else ret tt
      | ev_err err => if cb_err h then http_post_err e err else ret tt
      | ev_tick =>
          match cb_poll h with
          | None => ret tt
          | Some interval =>
              if polltmr h + 1 >=? interval then
                modify (set_pcb (Some (mk_pcb (pcb_conf h) (cb_arg h) (cb_poll h)
                                              (cb_recv h) (cb_err h) 0))) ;;
                http_post_poll e ;; ret tt
              else
                modify (set_pcb (Some (mk_pcb (pcb_conf h) (cb_arg h) (cb_poll h)
                                              (cb_recv h) (cb_err h) (polltmr h + 1))))
          end
      end
  end.

(** A run of events, and a run of [n] timer shots with nothing else. *)
Fixpoint run (e : env) (evs : list event) : M unit :=
  match evs with
  | [] => ret tt
  | ev :: rest => dispatch e ev ;; run e rest
  end.

Definition ticks (e : env) (n : nat) : M unit := run e (repeat ev_tick n).

(** The loop [while (!state->complete)] of [send_to_adafruit_io]; [None]
    when the script ends before the loop does. *)
Fixpoint wait_loop (e : env) (script : list step) (w : world) : option world :=
  if complete (state w) then Some w
  else
    match script with
    | [] => None
    | deadline :: _ =>
        Some (exec (modify (set_error (PICO_ERROR_TIMEOUT e)) ;;
                    modify (set_complete true)) w)
    | callback ev :: rest => wait_loop e rest (exec (dispatch e ev) w)
    end.

(** The text of the body, [{"value":"%.2f"}]; [value_text] is what
    [%.2f] prints for the value. *)
Definition json_text (value_text : string) : string :=
  "{" ++ dquote ++ "value" ++ dquote ++ ":" ++ dquote ++ value_text ++ dquote ++ "}".

Definition request_text (e : env) (feed_key : string) (json_len : Z) (json_body : string)
    : string :=
  "POST /api/v2/" ++ ADAFRUIT_IO_USERNAME e ++ "/feeds/" ++ feed_key ++ "/data HTTP/1.1" ++ crlf ++
  "Host: io.adafruit.com" ++ crlf ++
  "X-AIO-Key: " ++ ADAFRUIT_IO_KEY e ++ crlf ++
  "Content-Type: application/json" ++ crlf ++
  "Content-Length: " ++ fmt_d json_len ++ crlf ++
  "Connection: close" ++ crlf ++
  crlf ++
  json_body.

(** The whole message that the second [snprintf] of [send_to_adafruit_io]
    is asked to compose. *)
Definition composed_message (e : env) (feed_key value_text : string) : string :=
  let (json_body, json_len) := snprintf 128 (json_text value_text) in
  request_text e feed_key json_len json_body.

(** [int req_len] against [sizeof(state->http_request)], a [size_t]:
    the comparison is unsigned. *)
Definition request_too_long (req_len : Z) : bool := uint32 req_len >=? 512.

Definition send_to_adafruit_io
    (e : env) (tls : option altcp_tls_config)
    (feed_key value_text : string) (script : list step) : option outcome :=
  let (json_body, json_len) := snprintf 128 (json_text value_text) in
  let created := match tls with None => [altcp_tls_create_config_client] | Some _ => [] end in
  let tls := match tls with None => config_res e | Some c => Some c end in
  match tls with
  | None => Some (mk_outcome false None None created)
  | Some _ =>
      if negb (calloc_ok e) then Some (mk_outcome false tls None created)
      else
        let st := zeroed_state in
        let (request, req_len) := snprintf 512 (request_text e feed_key json_len json_body) in
        let st := set_http_request request st in
        if request_too_long req_len then
          Some (mk_outcome false tls (Some st) created)
        else
          let st := set_timeout 15 st in
          let (opened, w) := http_post_open e "io.adafruit.com" (mk_world tls st created) in
          if negb opened then
            Some (mk_outcome false (tls_config w) (Some (state w)) (calls w))
          else
            match wait_loop e script w with
            | None => None
            | Some w' =>
                let success := error (state w') =? 0 in
                Some (mk_outcome success (tls_config w') (Some (state w')) (calls w'))
            end
  end.

(** ** Reference points of the statements below *)

(** The class the status check gives a status code, read off its four
    literals: 200 and 201, 401, 404, and everything else. *)
Definition class_of_code (code : Z) : status_class :=
  if (code =? 200) || (code =? 201) then Success
  else if code =? 401 then AuthFailure
  else if code =? 404 then NotFound
  else UnexpectedStatus.

Definition status_class_eqb (a b : status_class) : bool :=
  match a, b with
  | Success, Success | AuthFailure, AuthFailure
  | NotFound, NotFound | UnexpectedStatus, UnexpectedStatus => true
  | _, _ => false
  end.

(** The three-digit status codes. *)
Definition status_codes : list Z := map Z.of_nat (seq 100 900).

(** An environment with the SDK's values of the error constants and the
    default macros of the source, in which every call succeeds and name
    resolution and connect complete later. *)
Definition default_env : env :=
  mk_env (-1) (-2) "your_username" "your_key"
         (Some 1) true true ERR_INPROGRESS ERR_INPROGRESS ERR_OK ERR_OK.

(** The handle as [http_post_open] leaves it registered. *)
Definition registered_pcb (w : world) : altcp_pcb :=
  mk_pcb (tls_config w) true (Some (uint8 (timeout (state w) * 2))) true true 0.

(** The handle is open and the poll callback is due within [interval]
    timer shots. *)
Definition armed (interval : Z) (w : world) : Prop :=
  exists h, pcb (state w) = Some h /\ cb_poll h = Some interval /\
            0 <= polltmr h < interval.

(** The configuration an uplink uses, the call that creates it when the
    global is still NULL, and the world in which [http_post_open] is
    called. *)
Definition config_in_use (e : env) (tls : option altcp_tls_config) :=
  match tls with Some c => Some c | None => config_res e end.

Definition config_calls (tls : option altcp_tls_config) : list io_call :=
  match tls with None => [altcp_tls_create_config_client] | Some _ => [] end.

Definition initial_world (e : env) (tls : option altcp_tls_config)
    (feed_key value_text : string) : world :=
  mk_world (config_in_use e tls)
           (set_timeout 15
              (set_http_request (fst (snprintf 512 (composed_message e feed_key value_text)))
                                zeroed_state))
           (config_calls tls).

(** The uplink gets as far as the wait loop. *)
Definition uplink_opens (e : env) (tls : option altcp_tls_config)
    (feed_key value_text : string) : Prop :=
  config_in_use e tls <> None /\ calloc_ok e = true /\ tls_new_ok e = true /\
  (dns_res e = ERR_OK \/ dns_res e = ERR_INPROGRESS) /\
  strlen (composed_message e feed_key value_text) < 512.

(** From [w] to [w'] the global [tls_config] is the same pointer and the
    calls made since do not free a TLS configuration. *)
Definition keeps_tls_config (w w' : world) : Prop :=
  tls_config w' = tls_config w /\
  exists l, calls w' = calls w ++ l /\ ~ In altcp_tls_free_config l.

(** An uplink answered with a status the check does not know, then closed
    by the server. *)
Definition unexpected_status_script : list step :=
  [callback (ev_dns_found (Some 7));
   callback (ev_connected ERR_OK);
   callback (ev_recv (Some (status_line 500 " Internal Server Error")));
   callback (ev_recv None)].

(** The steps of the wait loop that assign no non-zero error code. *)
Definition records_no_error (s : step) : bool :=
  match s with
  | callback (ev_dns_found _) | callback (ev_connected _) => true
  | callback (ev_recv None) => true
  | callback (ev_recv (Some p)) =>
      match classify_status (response_prefix p) with
      | Success | UnexpectedStatus => true
      | AuthFailure | NotFound => false
      end
  | callback (ev_err _) | callback ev_tick | deadline => false
  end.

(** The timer shots among the callbacks delivered. *)
Definition is_timer_shot (ev : event) : bool :=
  match ev with
  | ev_tick => true
  | _ => false
  end.

Definition timer_shots (evs : list event) : nat :=
  List.length (filter is_timer_shot evs).

(** The handle is open, its poll callback is registered with [interval],
    and [shots] timer shots have been counted towards it. *)
Definition counted (interval shots : Z) (w : world) : Prop :=
  exists h, pcb (state w) = Some h /\ cb_poll h = Some interval /\
            polltmr h = shots.

(** The callbacks that assign no non-zero error code: those of
    [records_no_error], and a timer shot at which the poll callback is
    not yet due. *)
Definition no_error_callback (ev : event) : bool :=
  is_timer_shot ev || records_no_error (callback ev).

(** An uplink answered with a status the check does not know, with a
    timer shot before the response and the server closing after it. *)
Definition unexpected_status_events : list event :=
  [ev_dns_found (Some 7); ev_connected ERR_OK; ev_tick;
   ev_recv (Some (status_line 500 " Internal Server Error"));
   ev_recv None].

Fixpoint replicate (n : nat) (c : ascii) : string :=
  match n with
  | O => EmptyString
  | S n' => String c (replicate n' c)
  end.

(** A feed key of 400 characters. *)
Definition long_feed_key : string := replicate 400 "k"%char.

(** ** Sensor registers *)

(** Conversions to [uint16_t] and [int16_t]. *)
Definition uint16 (z : Z) : Z := z mod 65536.
Definition sint16 (z : Z) : Z := (z + 32768) mod 65536 - 32768.

Definition BMP280_ADDR : Z := 0x76.
Definition REG_CONFIG : Z := 0xF5.
Definition REG_CTRL_MEAS : Z := 0xF4.
Definition REG_PRESSURE_MSB : Z := 0xF7.
Definition REG_DIG_T1_LSB : Z := 0x88.
Definition NUM_CALIB_PARAMS : Z := 24.

(** The transfers on the I2C bus. *)
Inductive i2c_op : Type :=
| i2c_write_blocking (addr : Z) (src : list Z) (nostop : bool)
| i2c_read_blocking (addr : Z) (len : Z) (nostop : bool).

(** [bmp280_init]: the two register writes. *)
Definition bmp280_init : list i2c_op :=
  let reg_config_val := uint8 (Z.land (Z.lor (Z.shiftl 0x04 5) (Z.shiftl 0x05 2)) 0xFC) in
  let reg_ctrl_meas_val := uint8 (Z.lor (Z.lor (Z.shiftl 0x01 5) (Z.shiftl 0x03 2)) 0x03) in
  [i2c_write_blocking BMP280_ADDR [REG_CONFIG; reg_config_val] false;
   i2c_write_blocking BMP280_ADDR [REG_CTRL_MEAS; reg_ctrl_meas_val] false].

(** [buf[i]] of a [uint8_t] buffer holding the bytes read from the bus. *)
Definition byte_at (buf : list Z) (i : nat) : Z := nth i buf 0.

Definition is_byte (b : Z) : Prop := 0 <= b <= 255.

(** [bmp280_read_raw]: the transfers it makes, and the values it stores
    in [*temp] and [*pressure] from the six bytes read. *)
Definition bmp280_read_raw_i2c : list i2c_op :=
  [i2c_write_blocking BMP280_ADDR [REG_PRESSURE_MSB] true;
   i2c_read_blocking BMP280_ADDR 6 false].

Definition bmp280_read_raw (buf : list Z) : Z * Z :=
  let pressure :=
    sint32 (Z.lor (Z.lor (Z.shiftl (byte_at buf 0) 12) (Z.shiftl (byte_at buf 1) 4))
                  (Z.shiftr (byte_at buf 2) 4)) in
  let temp :=
    sint32 (Z.lor (Z.lor (Z.shiftl (byte_at buf 3) 12) (Z.shiftl (byte_at buf 4) 4))
                  (Z.shiftr (byte_at buf 5) 4)) in
  (temp, pressure).

(** [(uint16_t)(hi << 8) | lo] stored in a [uint16_t], and
    [(int16_t)(hi << 8) | lo] stored in an [int16_t]. *)
Definition calib_u16 (hi lo : Z) : Z := uint16 (Z.lor (uint16 (Z.shiftl hi 8)) lo).
Definition calib_s16 (hi lo : Z) : Z := sint16 (Z.lor (sint16 (Z.shiftl hi 8)) lo).

(** [bmp280_get_calib_params]: the transfers it makes, and the parameters
    it stores from the 24 bytes read. *)
Definition bmp280_get_calib_params_i2c : list i2c_op :=
  [i2c_write_blocking BMP280_ADDR [REG_DIG_T1_LSB] true;
   i2c_read_blocking BMP280_ADDR NUM_CALIB_PARAMS false].

Definition bmp280_get_calib_params (buf : list Z) : bmp280_calib_param :=
  mk_calib (calib_u16 (byte_at buf 1) (byte_at buf 0))
           (calib_s16 (byte_at buf 3) (byte_at buf 2))
           (calib_s16 (byte_at buf 5) (byte_at buf 4))
           (calib_u16 (byte_at buf 7) (byte_at buf 6))
           (calib_s16 (byte_at buf 9) (byte_at buf 8))
           (calib_s16 (byte_at buf 11) (byte_at buf 10))
           (calib_s16 (byte_at buf 13) (byte_at buf 12))
           (calib_s16 (byte_at buf 15) (byte_at buf 14))
           (calib_s16 (byte_at buf 17) (byte_at buf 16))
           (calib_s16 (byte_at buf 19) (byte_at buf 18))
           (calib_s16 (byte_at buf 21) (byte_at buf 20))
           (calib_s16 (byte_at buf 23) (byte_at buf 22)).

(** The sensor's layout of a 20-bit sample: the upper 16 bits in two
    bytes, the lower 4 bits in the upper half of a third whose lower half
    is [pad]. *)
Definition sample_bytes (v pad : Z) : list Z :=
  [v / 4096; (v / 16) mod 256; (v mod 16) * 16 + pad].

(** The sensor's layout of a 16-bit coefficient: two's complement, low
    byte first. *)
Definition coefficient_bytes (v : Z) : list Z :=
  [v mod 256; (v mod 65536) / 256].

Definition calib_bytes (p : bmp280_calib_param) : list Z :=
  coefficient_bytes (dig_t1 p) ++ coefficient_bytes (dig_t2 p) ++
  coefficient_bytes (dig_t3 p) ++ coefficient_bytes (dig_p1 p) ++
  coefficient_bytes (dig_p2 p) ++ coefficient_bytes (dig_p3 p) ++
  coefficient_bytes (dig_p4 p) ++ coefficient_bytes (dig_p5 p) ++
  coefficient_bytes (dig_p6 p) ++ coefficient_bytes (dig_p7 p) ++
  coefficient_bytes (dig_p8 p) ++ coefficient_bytes (dig_p9 p).

(** Two bytes read low byte first, as an unsigned number and as a number
    in two's complement. *)
Definition unsigned_le (hi lo : Z) : Z := hi * 256 + lo.
Definition signed_le (hi lo : Z) : Z :=
  if hi <? 128 then hi * 256 + lo else hi * 256 + lo - 65536.

Definition is_u16 (v : Z) : Prop := 0 <= v <= 65535.
Definition is_s16 (v : Z) : Prop := -32768 <= v <= 32767.

(** The coefficients are in the ranges of their C types. *)
Definition calib_in_range (p : bmp280_calib_param) : Prop :=
  is_u16 (dig_t1 p) /\ is_s16 (dig_t2 p) /\ is_s16 (dig_t3 p) /\
  is_u16 (dig_p1 p) /\ is_s16 (dig_p2 p) /\ is_s16 (dig_p3 p) /\
  is_s16 (dig_p4 p) /\ is_s16 (dig_p5 p) /\ is_s16 (dig_p6 p) /\
  is_s16 (dig_p7 p) /\ is_s16 (dig_p8 p) /\ is_s16 (dig_p9 p).

(** ** Reference points of the further properties *)

(** The world in which the wait loop starts. *)
Definition opened_world (e : env) (tls : option altcp_tls_config)
    (feed_key value_text : string) : world :=
  exec (http_post_open e "io.adafruit.com") (initial_world e tls feed_key value_text).

(** What [send_to_adafruit_io] returns from the world in which its wait
    loop ends. *)
Definition outcome_of (w : world) : outcome :=
  mk_outcome (error (state w) =? 0) (tls_config w) (Some (state w)) (calls w).

(** The callbacks by which the transport reports that name resolution,
    the connect or the write failed. *)
Definition transport_failure (e : env) (ev : event) : bool :=
  match ev with
  | ev_dns_found None => true
  | ev_dns_found (Some _) =>
      negb (is_ERR_OK (connect_res e) || is_ERR_INPROGRESS (connect_res e))
  | ev_connected err => negb (is_ERR_OK err) || negb (is_ERR_OK (write_res e))
  | _ => false
  end.

(** The calls [http_post_open] makes to create and register a handle and
    to start name resolution, for a timeout of 15. *)
Definition registration (conf : option altcp_tls_config) (hostname : string)
    : list io_call :=
  [altcp_tls_new conf; altcp_arg true; altcp_poll (Some 30); altcp_recv true;
   altcp_err true; mbedtls_ssl_set_hostname hostname; dns_gethostbyname hostname].

(** The calls made while a connection is in use: the connect to port 443,
    the write of [request], and the acknowledgement and release of what
    was received. *)
Definition is_transfer_call (request : string) (c : io_call) : bool :=
  match c with
  | altcp_connect port => port =? 443
  | altcp_write data => String.eqb data request
  | altcp_recved _ | pbuf_free => true
  | _ => false
  end.

(** The handle is open with every callback registered on it. *)
Definition registered (w : world) : Prop :=
  exists h, pcb (state w) = Some h /\
            cb_arg h = true /\ cb_recv h = true /\ cb_err h = true /\
            cb_poll h <> None.

(** The calls that end a trace: the teardown when the handle has been
    closed, nothing while it is still set. *)
Definition tail_of (e : env) (st : HTTP_POST_STATE_T) : list io_call :=
  match pcb st with
  | None => teardown e
  | Some _ => []
  end.

(** The shape of the world of an uplink after [http_post_open] has
    created the handle: the configuration and the request are those it
    started with, and the calls are those made before, then calls of the
    connection in use, then the teardown if the handle was closed. *)
Definition uplink_shape (e : env) (conf : option altcp_tls_config)
    (base : list io_call) (request : string) (w : world) : Prop :=
  tls_config w = conf /\
  http_request (state w) = request /\
  exists body,
    calls w = base ++ body ++ tail_of e (state w) /\
    forallb (is_transfer_call request) body = true.

(** * Properties *)

(** ** Fixed-width arithmetic *)

Lemma sint32_range (z : Z) : in_sint32 (sint32 z).
Proof.
  unfold in_sint32, sint32.
  pose proof (Z.mod_pos_bound (z + 2147483648) 4294967296 ltac:(lia)). lia.
Qed.

Lemma sint32_id (z : Z) : in_sint32 z -> sint32 z = z.
Proof.
  unfold in_sint32, sint32. intros H.
  rewrite Z.mod_small by lia. lia.
Qed.

Lemma sint32_add_l (a b : Z) : sint32 (sint32 a + b) = sint32 (a + b).
Proof.
  unfold sint32.
  replace ((a + 2147483648) mod 4294967296 - 2147483648 + b + 2147483648)
    with ((a + 2147483648) mod 4294967296 + b) by lia.
  rewrite Zplus_mod_idemp_l. f_equal. f_equal. lia.
Qed.

Lemma shiftr_in_sint32 (z n : Z) : 0 <= n -> in_sint32 z -> in_sint32 (Z.shiftr z n).
Proof.
  unfold in_sint32. intros Hn [Hlo Hhi].
  rewrite Z.shiftr_div_pow2 by assumption.
  assert (Hp : 0 < 2 ^ n) by (apply Z.pow_pos_nonneg; lia).
  assert (H1 : 1 <= 2 ^ n) by lia.
  split.
  - apply Z.div_le_lower_bound; [assumption|]. nia.
  - apply Z.lt_succ_r. apply Z.div_lt_upper_bound; [assumption|]. nia.
Qed.

(** A non-zero [int32_t] stays non-zero when converted to [uint32_t]. *)
Lemma uint32_nonzero (z : Z) : in_sint32 z -> z <> 0 -> uint32 z <> 0.
Proof.
  unfold in_sint32, uint32. intros Hr Hz Hm.
  apply Z.mod_divide in Hm; [|lia].
  destruct Hm as [k Hk]. subst z.
  assert (k = 0) by lia. subst k. lia.
Qed.

Lemma uint32_idem (z : Z) : uint32 (uint32 z) = uint32 z.
Proof. unfold uint32. apply Z.mod_mod. lia. Qed.

Lemma pressure_var1_range (temp : Z) (params : bmp280_calib_param) :
  in_sint32 (pressure_var1 temp params).
Proof. unfold pressure_var1, sar32. apply sint32_range. Qed.

Lemma udiv32_defined (a b : Z) :
  in_sint32 b -> b <> 0 -> exists q, udiv32 a (uint32 b) = Some q.
Proof.
  intros Hr Hz. unfold udiv32. rewrite uint32_idem.
  destruct (uint32 b =? 0) eqn:E.
  - apply Z.eqb_eq in E. exfalso. exact (uint32_nonzero b Hr Hz E).
  - eexists. reflexivity.
Qed.

(** ** Compensation engine *)

(** The data sheet's reference temperature: 25.08 degrees. *)
Example datasheet_reference :
  bmp280_convert datasheet_raw_temp datasheet_params = 128422 /\
  bmp280_convert_temp datasheet_raw_temp datasheet_params = 2508.
Proof. split; reflexivity. Qed.

(** C4: when [var1] is zero at the guard, [bmp280_convert_pressure] returns
    a pressure of 0; whatever the inputs, it returns a value, that is, no
    division it performs has a zero divisor: past the guard the divisor
    [(uint32_t)var1] is non-zero. *)
Theorem bmp280_convert_pressure_total (pressure temp : Z) (params : bmp280_calib_param) :
  (pressure_var1 temp params = 0 ->
   bmp280_convert_pressure pressure temp params = Some 0) /\
  (pressure_var1 temp params <> 0 -> uint32 (pressure_var1 temp params) <> 0) /\
  (exists r, bmp280_convert_pressure pressure temp params = Some r).
Proof.
  pose proof (pressure_var1_range temp params) as Hr.
  split; [|split].
  - intros H0. unfold bmp280_convert_pressure. rewrite H0. reflexivity.
  - intros Hz. apply uint32_nonzero; assumption.
  - unfold bmp280_convert_pressure.
    destruct (pressure_var1 temp params =? 0) eqn:E.
    + eexists. reflexivity.
    + apply Z.eqb_neq in E.
      match goal with
      | |- context [if ?c <? 2147483648 then _ else _] => destruct (c <? 2147483648)
      end.
      * match goal with
        | |- context [udiv32 ?a (uint32 ?b)] =>
            destruct (udiv32_defined a b Hr E) as [q Hq]
        end.
        rewrite Hq. eexists. reflexivity.
      * match goal with
        | |- context [udiv32 ?a (uint32 ?b)] =>
            destruct (udiv32_defined a b Hr E) as [q Hq]
        end.
        rewrite Hq. eexists. reflexivity.
Qed.

Lemma bmp280_convert_pressure_total_witness :
  pressure_var1 datasheet_raw_temp degenerate_params = 0 /\
  bmp280_convert_pressure datasheet_raw_pressure datasheet_raw_temp degenerate_params = Some 0.
Proof.
  split.
  - reflexivity.
  - apply (proj1 (bmp280_convert_pressure_total
                    datasheet_raw_pressure datasheet_raw_temp degenerate_params)).
    reflexivity.
Defined.

(** C7: the temperature is the fine-temperature intermediate times 5, plus
    128, shifted right by 8, in [int32_t] arithmetic; when [t_fine * 5 + 128]
    is an [int32_t] this is the floor of [(t_fine * 5 + 128) / 256]. *)
Theorem bmp280_convert_temp_scaling (temp : Z) (params : bmp280_calib_param) :
  let t_fine := bmp280_convert temp params in
  bmp280_convert_temp temp params = Z.shiftr (sint32 (t_fine * 5 + 128)) 8 /\
  (in_sint32 (t_fine * 5 + 128) ->
   bmp280_convert_temp temp params = (t_fine * 5 + 128) / 256).
Proof.
  intros t_fine.
  assert (E : bmp280_convert_temp temp params = Z.shiftr (sint32 (t_fine * 5 + 128)) 8).
  { unfold bmp280_convert_temp, sar32, add32, mul32. fold t_fine.
    rewrite sint32_add_l.
    apply sint32_id. apply shiftr_in_sint32; [lia | apply sint32_range]. }
  split; [exact E|].
  intros Hr. rewrite E, (sint32_id _ Hr).
  rewrite Z.shiftr_div_pow2 by lia. reflexivity.
Qed.

Lemma bmp280_convert_temp_scaling_witness :
  in_sint32 (bmp280_convert datasheet_raw_temp datasheet_params * 5 + 128) /\
  bmp280_convert_temp datasheet_raw_temp datasheet_params =
  (bmp280_convert datasheet_raw_temp datasheet_params * 5 + 128) / 256.
Proof.
  assert (H : in_sint32 (bmp280_convert datasheet_raw_temp datasheet_params * 5 + 128)).
  { vm_compute. split; discriminate. }
  split; [exact H|].
  apply (proj2 (bmp280_convert_temp_scaling datasheet_raw_temp datasheet_params)).
  exact H.
Defined.

(** C8 as stated fails: two calibration sets that agree on [dig_t1] and
    [dig_t2] but not on [dig_t3] give different intermediates. *)
Lemma bmp280_convert_reads_dig_t3 :
  dig_t1 datasheet_params = dig_t1 datasheet_params_t3_0 /\
  dig_t2 datasheet_params = dig_t2 datasheet_params_t3_0 /\
  bmp280_convert datasheet_raw_temp datasheet_params <>
  bmp280_convert datasheet_raw_temp datasheet_params_t3_0.
Proof. repeat split. vm_compute. discriminate. Qed.

(** C8, amended: the fine-temperature intermediate depends on the raw
    temperature and the three temperature coefficients only: calibration
    sets that agree on [dig_t1], [dig_t2] and [dig_t3] give the same value. *)
Theorem bmp280_convert_temperature_coefficients_only
    (temp : Z) (p q : bmp280_calib_param) :
  dig_t1 p = dig_t1 q -> dig_t2 p = dig_t2 q -> dig_t3 p = dig_t3 q ->
  bmp280_convert temp p = bmp280_convert temp q.
Proof.
  intros H1 H2 H3. unfold bmp280_convert. rewrite H1, H2, H3. reflexivity.
Qed.

Lemma bmp280_convert_temperature_coefficients_only_witness :
  dig_t1 datasheet_params = dig_t1 degenerate_params /\
  dig_t2 datasheet_params = dig_t2 degenerate_params /\
  dig_t3 datasheet_params = dig_t3 degenerate_params /\
  dig_p1 datasheet_params <> dig_p1 degenerate_params /\
  bmp280_convert datasheet_raw_temp datasheet_params =
  bmp280_convert datasheet_raw_temp degenerate_params.
Proof.
  split; [reflexivity|]. split; [reflexivity|]. split; [reflexivity|].
  split; [discriminate|].
  apply (bmp280_convert_temperature_coefficients_only
           datasheet_raw_temp datasheet_params degenerate_params);
    reflexivity.
Defined.

(** ** C strings *)

Lemma substring_0_length (s : string) : substring 0 (String.length s) s = s.
Proof. induction s as [|c s IH]; simpl; [reflexivity | now rewrite IH]. Qed.

(** Cutting a string at [m] characters does not change a comparison of at
    most [n <= m] characters. *)
Lemma strncmp_substring (n : nat) :
  forall (m : nat) (s t : string),
    (n <= m)%nat -> strncmp (substring 0 m s) t n = strncmp s t n.
Proof.
  induction n as [|n IH]; intros m s t Hle; [reflexivity|].
  destruct m as [|m]; [lia|].
  destruct s as [|c s]; [reflexivity|].
  simpl. rewrite IH by lia. reflexivity.
Qed.

(** The status check sees the payload through its first 511 characters,
    which decide the same class as the whole payload. *)
Lemma classify_response_prefix (p : pbuf) :
  classify_status (response_prefix p) = classify_status p.
Proof.
  unfold response_prefix, tot_len, strlen.
  destruct (Z.of_nat (String.length p) <? 512 - 1).
  - rewrite Nat2Z.id, substring_0_length. reflexivity.
  - unfold classify_status.
    rewrite !strncmp_substring by lia. reflexivity.
Qed.

Lemma nat_of_ascii_inj (a b : ascii) : nat_of_ascii a = nat_of_ascii b -> a = b.
Proof.
  intros H. rewrite <- (ascii_nat_embedding a), <- (ascii_nat_embedding b), H.
  reflexivity.
Qed.

(** Against a literal of [n] characters without a NUL, [strncmp] over [n]
    characters is 0 exactly when the string starts with the literal. *)
Lemma strncmp_prefix (lit : string) :
  forall s : string,
    no_nul lit = true ->
    (strncmp s lit (String.length lit) =? 0) = prefix lit s.
Proof.
  induction lit as [|c lit IH]; intros s Hn; [destruct s; reflexivity|].
  simpl in Hn. apply andb_prop in Hn. destruct Hn as [Hc Hn].
  apply negb_true_iff, Nat.eqb_neq in Hc.
  destruct s as [|a s]; cbn [strncmp head_char tail_chars prefix String.length].
  - destruct (0 =? Z.of_nat (nat_of_ascii c)) eqn:E; [apply Z.eqb_eq in E; lia|].
    apply Z.eqb_neq. lia.
  - destruct (ascii_dec c a) as [->|Hne].
    + rewrite Z.eqb_refl.
      destruct (Z.of_nat (nat_of_ascii a) =? 0) eqn:E; [apply Z.eqb_eq in E; lia|].
      apply IH, Hn.
    + destruct (Z.of_nat (nat_of_ascii a) =? Z.of_nat (nat_of_ascii c)) eqn:E.
      * apply Z.eqb_eq, Nat2Z.inj, nat_of_ascii_inj in E. congruence.
      * apply Z.eqb_neq in E. apply Z.eqb_neq. lia.
Qed.

Lemma classify_status_prefix (buf : string) :
  classify_status buf =
  if prefix "HTTP/1.1 200" buf || prefix "HTTP/1.1 201" buf then Success
  else if prefix "HTTP/1.1 401" buf then AuthFailure
  else if prefix "HTTP/1.1 404" buf then NotFound
  else UnexpectedStatus.
Proof.
  unfold classify_status.
  rewrite <- (strncmp_prefix "HTTP/1.1 200"), <- (strncmp_prefix "HTTP/1.1 201"),
    <- (strncmp_prefix "HTTP/1.1 401"), <- (strncmp_prefix "HTTP/1.1 404")
    by reflexivity.
  reflexivity.
Qed.

Lemma status_class_eqb_eq (a b : status_class) : status_class_eqb a b = true -> a = b.
Proof. destruct a, b; simpl; congruence. Qed.

Lemma status_codes_complete (code : Z) : 100 <= code <= 999 -> In code status_codes.
Proof.
  intros H. unfold status_codes. apply in_map_iff.
  exists (Z.to_nat code). split; [lia|]. apply in_seq. lia.
Qed.

Lemma classify_status_codes (rest : string) :
  forallb (fun code => status_class_eqb (classify_status (status_line code rest))
                                        (class_of_code code))
          status_codes = true.
Proof. vm_compute. reflexivity. Qed.

(** ** What each callback does to the world *)

Ltac unfold_m :=
  unfold exec, eval, on_pcb, call, modify, get_state, bind, ret in *.

Ltac open_world w :=
  let tls := fresh "w_tls" in
  let p := fresh "w_pcb" in
  let c := fresh "w_complete" in
  let er := fresh "w_error" in
  let rq := fresh "w_request" in
  let t := fresh "w_timeout" in
  let cs := fresh "w_calls" in
  destruct w as [tls [p c er rq t] cs].

Lemma http_post_close_exec (e : env) (w : world) :
  exec (http_post_close e) w =
  mk_world (tls_config w)
           (set_pcb None (set_complete true (state w)))
           (calls w ++ match pcb (state w) with
                       | Some _ => teardown e
                       | None => []
                       end).
Proof.
  open_world w. unfold http_post_close, teardown. unfold_m. simpl.
  destruct w_pcb as [h|]; simpl.
  - destruct (is_ERR_OK (close_res e)); simpl;
      unfold set_pcb, set_complete; simpl; rewrite <- !app_assoc; reflexivity.
  - unfold set_pcb, set_complete. simpl. rewrite app_nil_r. reflexivity.
Qed.

Lemma http_post_recv_eof_exec (e : env) (w : world) :
  exec (http_post_recv e None) w =
  mk_world (tls_config w)
           (set_pcb None (set_complete true (set_error 0 (state w))))
           (calls w ++ match pcb (state w) with
                       | Some _ => teardown e
                       | None => []
                       end).
Proof.
  unfold http_post_recv.
  change (exec (modify (set_error 0) ;; http_post_close e) w)
    with (exec (http_post_close e) (exec (modify (set_error 0)) w)).
  rewrite http_post_close_exec. reflexivity.
Qed.

Lemma exec_seq {A B : Type} (m : M A) (k : M B) (w : world) :
  exec (m ;; k) w = exec k (exec m w).
Proof. unfold exec, bind. destruct (m w). reflexivity. Qed.

Lemma http_post_recv_data_exec (e : env) (p : pbuf) (w : world) :
  exec (http_post_recv e (Some p)) w =
  if tot_len p >? 0 then
    mk_world (tls_config w)
             (set_error (record_status e (classify_status p) (error (state w))) (state w))
             (calls w ++ [altcp_recved (tot_len p); pbuf_free])
  else mk_world (tls_config w) (state w) (calls w ++ [pbuf_free]).
Proof.
  open_world w. unfold http_post_recv. unfold_m.
  destruct (tot_len p >? 0); simpl.
  - rewrite classify_response_prefix, <- app_assoc. reflexivity.
  - reflexivity.
Qed.

Lemma http_post_poll_exec (e : env) (w : world) :
  exec (http_post_poll e) w =
  mk_world (tls_config w)
           (set_pcb None (set_complete true (set_error (PICO_ERROR_TIMEOUT e) (state w))))
           (calls w ++ match pcb (state w) with
                       | Some _ => teardown e
                       | None => []
                       end).
Proof.
  unfold http_post_poll. rewrite exec_seq, http_post_close_exec. reflexivity.
Qed.

Lemma http_post_err_exec (e : env) (err : err_t) (w : world) :
  exec (http_post_err e err) w =
  mk_world (tls_config w)
           (set_error (PICO_ERROR_GENERIC e) (set_pcb None (set_complete true (state w))))
           (calls w ++ match pcb (state w) with
                       | Some _ => teardown e
                       | None => []
                       end).
Proof.
  unfold http_post_err. rewrite exec_seq, http_post_close_exec. reflexivity.
Qed.

Lemma http_post_connected_exec (e : env) (err : err_t) (w : world) :
  exec (http_post_connected e err) w =
  if is_ERR_OK err then
    let w1 := mk_world (tls_config w) (state w)
                       (calls w ++ [altcp_write (http_request (state w))]) in
    if is_ERR_OK (write_res e) then w1 else exec (http_post_close e) w1
  else exec (http_post_close e) w.
Proof.
  unfold http_post_connected.
  destruct (is_ERR_OK err); simpl; [|reflexivity].
  open_world w. unfold_m. simpl.
  destruct (is_ERR_OK (write_res e)); reflexivity.
Qed.

Lemma http_post_connect_to_server_ip_exec (e : env) (w : world) :
  exec (http_post_connect_to_server_ip e) w =
  let w1 := mk_world (tls_config w) (state w) (calls w ++ [altcp_connect 443]) in
  if is_ERR_OK (connect_res e) || is_ERR_INPROGRESS (connect_res e) then w1
  else exec (http_post_close e) w1.
Proof.
  unfold http_post_connect_to_server_ip.
  rewrite exec_seq.
  destruct (is_ERR_OK (connect_res e)); simpl; [reflexivity|].
  destruct (is_ERR_INPROGRESS (connect_res e)); simpl; [reflexivity|].
  rewrite exec_seq. reflexivity.
Qed.

Lemma http_post_dns_found_exec (e : env) (ipaddr : option ip_addr_t) (w : world) :
  exec (http_post_dns_found e ipaddr) w =
  match ipaddr with
  | Some _ => exec (http_post_connect_to_server_ip e) w
  | None => exec (http_post_close e) w
  end.
Proof.
  destruct ipaddr; simpl; [reflexivity|]. rewrite exec_seq. reflexivity.
Qed.

(** The world after one event, callback by callback. *)
Lemma dispatch_exec (e : env) (ev : event) (w : world) :
  exec (dispatch e ev) w =
  match pcb (state w) with
  | None => w
  | Some h =>
      match ev with
      | ev_dns_found ipaddr => exec (http_post_dns_found e ipaddr) w
      | ev_connected err => exec (http_post_connected e err) w
      | ev_recv p => if cb_recv h then exec (http_post_recv e p) w else w
      | ev_err err => if cb_err h then exec (http_post_err e err) w else w
      | ev_tick =>
          match cb_poll h with
          | None => w
          | Some interval =>
              if polltmr h + 1 >=? interval then
                exec (http_post_poll e)
                     (mk_world (tls_config w)
                               (set_pcb (Some (mk_pcb (pcb_conf h) (cb_arg h) (cb_poll h)
                                                      (cb_recv h) (cb_err h) 0)) (state w))
                               (calls w))
              else
                mk_world (tls_config w)
                         (set_pcb (Some (mk_pcb (pcb_conf h) (cb_arg h) (cb_poll h)
                                                (cb_recv h) (cb_err h) (polltmr h + 1)))
                                  (state w))
                         (calls w)
          end
      end
  end.
Proof.
  unfold dispatch.
  change (exec (st <- get_state ;; ?k) w) with (exec (k (state w)) w).
  unfold exec at 1, bind at 1, get_state. simpl.
  destruct (pcb (state w)) as [h|] eqn:Hp; [|reflexivity].
  destruct ev as [ipaddr|err|p|err|].
  - reflexivity.
  - fold (exec (http_post_connected e err ;; ret tt) w). rewrite exec_seq. reflexivity.
  - destruct (cb_recv h); [|reflexivity].
    fold (exec (http_post_recv e p ;; ret tt) w). rewrite exec_seq. reflexivity.
  - destruct (cb_err h); reflexivity.
  - destruct (cb_poll h) as [interval|]; [|reflexivity].
    destruct (polltmr h + 1 >=? interval).
    + match goal with
      | |- snd (?m w) = _ => fold (exec m w)
      end.
      rewrite exec_seq, exec_seq. reflexivity.
    + reflexivity.
Qed.

Lemma http_post_open_exec (e : env) (hostname : string) (w : world) :
  http_post_open e hostname w =
  if tls_new_ok e then
    let w1 :=
      mk_world (tls_config w) (set_pcb (Some (registered_pcb w)) (state w))
               (calls w ++ [altcp_tls_new (tls_config w); altcp_arg true;
                            altcp_poll (Some (uint8 (timeout (state w) * 2)));
                            altcp_recv true; altcp_err true;
                            mbedtls_ssl_set_hostname hostname;
                            dns_gethostbyname hostname]) in
    (is_ERR_OK (dns_res e) || is_ERR_INPROGRESS (dns_res e),
     if is_ERR_OK (dns_res e) then exec (http_post_connect_to_server_ip e) w1
     else if is_ERR_INPROGRESS (dns_res e) then w1
     else exec (http_post_close e) w1)
  else
    (false, mk_world (tls_config w) (set_pcb None (state w))
                     (calls w ++ [altcp_tls_new (tls_config w)])).
Proof.
  unfold http_post_open.
  destruct (tls_new_ok e); [|reflexivity].
  open_world w.
  cbv [registered_pcb exec eval on_pcb call modify get_state bind ret option_map
       set_pcb tls_config state calls pcb complete error http_request timeout
       pcb_conf cb_arg cb_poll cb_recv cb_err polltmr].
  rewrite <- !app_assoc. simpl app.
  destruct (is_ERR_OK (dns_res e)) eqn:Hok; cbv [negb orb].
  - destruct (http_post_connect_to_server_ip e _) eqn:E. reflexivity.
  - destruct (is_ERR_INPROGRESS (dns_res e)); cbv [negb orb]; [reflexivity|].
    destruct (http_post_close e _) eqn:E. reflexivity.
Qed.

Lemma http_post_open_eval (e : env) (hostname : string) (w : world) :
  eval (http_post_open e hostname) w =
  tls_new_ok e && (is_ERR_OK (dns_res e) || is_ERR_INPROGRESS (dns_res e)).
Proof.
  unfold eval. rewrite http_post_open_exec.
  destruct (tls_new_ok e); reflexivity.
Qed.

(** ** Status classification *)

Lemma tot_len_status_line (code : Z) (rest : string) :
  (tot_len (status_line code rest) >? 0) = true.
Proof.
  unfold tot_len, strlen, status_line.
  cbn [append String.length]. apply Z.gtb_lt. lia.
Qed.

(** C2 as stated fails: 204 is a 2xx status code, and its status line is
    classified as an unexpected status, not as a success. *)
Lemma status_204_is_unexpected :
  200 <= 204 <= 299 /\
  classify_status (response_prefix (status_line 204 " No Content")) = UnexpectedStatus /\
  classify_status (response_prefix (status_line 204 " No Content")) <> Success.
Proof.
  split; [lia|]. split; [reflexivity|]. vm_compute. discriminate.
Qed.

Lemma classify_status_line (code : Z) (rest : string) :
  100 <= code <= 999 ->
  classify_status (status_line code rest) = class_of_code code.
Proof.
  intros Hcode. apply status_class_eqb_eq.
  pose proof (classify_status_codes rest) as Hall.
  rewrite forallb_forall in Hall.
  apply (Hall code), status_codes_complete, Hcode.
Qed.

(** The error code after [http_post_recv] has seen a status line. *)
Lemma http_post_recv_status_line (e : env) (code : Z) (rest : string) (w : world) :
  100 <= code <= 999 ->
  state (exec (http_post_recv e (Some (status_line code rest))) w) =
  set_error (record_status e (class_of_code code) (error (state w))) (state w).
Proof.
  intros Hcode.
  rewrite http_post_recv_data_exec, tot_len_status_line, classify_status_line by exact Hcode.
  reflexivity.
Qed.

(** C2, amended: the status check maps an HTTP/1.1 status line with code
    200 or 201 to success, with code 401 to the authentication failure,
    with code 404 to the missing feed, and with any other code, the other
    2xx codes among them, to the unexpected status; [http_post_recv]
    records 0 for success, PICO_ERROR_GENERIC for 401 and 404, and leaves
    the error code as it was otherwise. Whatever the payload, its class
    is decided by which of the four literals it starts with. *)
Theorem status_check_by_code (e : env) (code : Z) (rest : string) (w : world) :
  100 <= code <= 999 ->
  classify_status (response_prefix (status_line code rest)) = class_of_code code /\
  state (exec (http_post_recv e (Some (status_line code rest))) w) =
  set_error (record_status e (class_of_code code) (error (state w))) (state w) /\
  (forall p : pbuf,
      classify_status (response_prefix p) =
      if prefix "HTTP/1.1 200" p || prefix "HTTP/1.1 201" p then Success
      else if prefix "HTTP/1.1 401" p then AuthFailure
      else if prefix "HTTP/1.1 404" p then NotFound
      else UnexpectedStatus).
Proof.
  intros Hcode. split; [|split].
  - rewrite classify_response_prefix. apply classify_status_line, Hcode.
  - apply http_post_recv_status_line, Hcode.
  - intros p. rewrite classify_response_prefix. apply classify_status_prefix.
Qed.

Lemma status_check_by_code_witness :
  100 <= 204 <= 999 /\
  classify_status (response_prefix (status_line 204 " No Content")) = UnexpectedStatus /\
  state (exec (http_post_recv default_env (Some (status_line 204 " No Content")))
              (mk_world (Some 1) zeroed_state [])) =
  zeroed_state.
Proof.
  split; [lia|].
  destruct (status_check_by_code default_env 204 " No Content"
              (mk_world (Some 1) zeroed_state [])) as (Hclass & Hstate & _); [lia|].
  split; [exact Hclass | exact Hstate].
Defined.

(** ** End of stream *)

(** C1 fails on the code: once a 401 or 404 status line has been recorded
    as PICO_ERROR_GENERIC, the end of the stream overwrites the error code
    with 0 before closing, so the connection completes with an error code
    that differs from the one recorded. *)
Theorem end_of_stream_overwrites_outcome
    (e : env) (code : Z) (rest : string) (w : world) :
  PICO_ERROR_GENERIC e <> 0 ->
  code = 401 \/ code = 404 ->
  let w1 := exec (http_post_recv e (Some (status_line code rest))) w in
  let w2 := exec (http_post_recv e None) w1 in
  error (state w1) = PICO_ERROR_GENERIC e /\
  complete (state w2) = true /\
  pcb (state w2) = None /\
  error (state w2) = 0 /\
  error (state w2) <> error (state w1).
Proof.
  intros Hg Hcode w1 w2.
  assert (H1 : error (state w1) = PICO_ERROR_GENERIC e).
  { unfold w1. rewrite http_post_recv_status_line by lia.
    destruct Hcode; subst code; reflexivity. }
  clearbody w1. unfold w2. rewrite http_post_recv_eof_exec. simpl.
  repeat split; try assumption.
  rewrite H1. congruence.
Qed.

Lemma end_of_stream_overwrites_outcome_witness :
  PICO_ERROR_GENERIC default_env <> 0 /\
  let w1 := exec (http_post_recv default_env (Some (status_line 401 " Unauthorized")))
                 (mk_world (Some 1) zeroed_state []) in
  let w2 := exec (http_post_recv default_env None) w1 in
  error (state w1) = -1 /\ complete (state w2) = true /\ pcb (state w2) = None /\
  error (state w2) = 0 /\ error (state w2) <> error (state w1).
Proof.
  assert (Hg : PICO_ERROR_GENERIC default_env <> 0) by (simpl; discriminate).
  split; [exact Hg|].
  apply (end_of_stream_overwrites_outcome default_env 401 " Unauthorized"
           (mk_world (Some 1) zeroed_state []) Hg).
  left. reflexivity.
Defined.

(** An uplink answered with 401 and then closed by the server is reported
    as delivered. *)
Example auth_failure_reported_as_success :
  option_map returned
    (send_to_adafruit_io default_env (Some 1) "bmp280-temp" "23.46"
       [callback (ev_dns_found (Some 7));
        callback (ev_connected ERR_OK);
        callback (ev_recv (Some (status_line 401 " Unauthorized")));
        callback (ev_recv None)]) = Some true.
Proof. vm_compute. reflexivity. Qed.

(** ** The request and the size check *)

Lemma strlen_nonneg (s : string) : 0 <= strlen s.
Proof. unfold strlen. lia. Qed.

Lemma request_too_long_oversize (text : string) :
  512 <= strlen text -> request_too_long (snd (snprintf 512 text)) = true.
Proof.
  intros H. unfold request_too_long, snprintf, INT_MAX, uint32. simpl snd.
  destruct (strlen text <=? 2147483647) eqn:E.
  - apply Z.leb_le in E. rewrite Z.mod_small by lia. lia.
  - reflexivity.
Qed.

Lemma request_too_long_fits (text : string) :
  strlen text < 512 -> request_too_long (snd (snprintf 512 text)) = false.
Proof.
  intros H. pose proof (strlen_nonneg text).
  unfold request_too_long, snprintf, INT_MAX, uint32. simpl snd.
  destruct (strlen text <=? 2147483647) eqn:E.
  - rewrite Z.mod_small by lia. lia.
  - apply Z.leb_gt in E. lia.
Qed.

(** [send_to_adafruit_io], step by step. *)
Lemma send_to_adafruit_io_checked
    (e : env) (tls : option altcp_tls_config)
    (feed_key value_text : string) (script : list step) :
  send_to_adafruit_io e tls feed_key value_text script =
  match config_in_use e tls with
  | None => Some (mk_outcome false None None (config_calls tls))
  | Some _ =>
      if negb (calloc_ok e) then
        Some (mk_outcome false (config_in_use e tls) None (config_calls tls))
      else
        let text := composed_message e feed_key value_text in
        if request_too_long (snd (snprintf 512 text)) then
          Some (mk_outcome false (config_in_use e tls)
                           (Some (set_http_request (fst (snprintf 512 text)) zeroed_state))
                           (config_calls tls))
        else
          let w0 := initial_world e tls feed_key value_text in
          let w := exec (http_post_open e "io.adafruit.com") w0 in
          if negb (eval (http_post_open e "io.adafruit.com") w0) then
            Some (mk_outcome false (tls_config w) (Some (state w)) (calls w))
          else
            match wait_loop e script w with
            | None => None
            | Some w' =>
                Some (mk_outcome (error (state w') =? 0) (tls_config w')
                                 (Some (state w')) (calls w'))
            end
  end.
Proof.
  unfold send_to_adafruit_io, initial_world, composed_message, config_in_use, config_calls,
    eval, exec.
  cbv beta iota zeta delta [snprintf fst snd].
  destruct tls as [c|]; [|destruct (config_res e) as [c|]; [|reflexivity]].
  - destruct (calloc_ok e); [|reflexivity]. cbn [negb].
    destruct (request_too_long _); [reflexivity|].
    destruct (http_post_open e _ _) as [opened w]. reflexivity.
  - destruct (calloc_ok e); [|reflexivity]. cbn [negb].
    destruct (request_too_long _); [reflexivity|].
    destruct (http_post_open e _ _) as [opened w]. reflexivity.
Qed.

(** Past the checks, the result is decided by the wait loop. *)
Lemma send_to_adafruit_io_opened
    (e : env) (tls : option altcp_tls_config)
    (feed_key value_text : string) (script : list step) :
  uplink_opens e tls feed_key value_text ->
  send_to_adafruit_io e tls feed_key value_text script =
  match wait_loop e script
          (exec (http_post_open e "io.adafruit.com")
                (initial_world e tls feed_key value_text)) with
  | None => None
  | Some w' =>
      Some (mk_outcome (error (state w') =? 0) (tls_config w')
                       (Some (state w')) (calls w'))
  end.
Proof.
  intros (Hconf & Hcalloc & Hnew & Hdns & Hfit).
  rewrite send_to_adafruit_io_checked.
  destruct (config_in_use e tls) as [c|]; [|congruence].
  rewrite Hcalloc. cbn [negb]. cbv zeta.
  rewrite (request_too_long_fits _ Hfit).
  rewrite http_post_open_eval, Hnew.
  replace (is_ERR_OK (dns_res e) || is_ERR_INPROGRESS (dns_res e)) with true
    by (destruct Hdns as [-> | ->]; reflexivity).
  reflexivity.
Qed.

(** C5: when the composed request has 512 characters or more,
    [send_to_adafruit_io] returns false and has made no call that creates
    a connection, resolves a name or writes: the only call it can have made
    is the creation of the TLS configuration. *)
Theorem oversize_request_rejected
    (e : env) (tls : option altcp_tls_config)
    (feed_key value_text : string) (script : list step) :
  512 <= strlen (composed_message e feed_key value_text) ->
  exists o,
    send_to_adafruit_io e tls feed_key value_text script = Some o /\
    returned o = false /\
    trace o = config_calls tls /\
    Forall (fun c => is_network_call c = false) (trace o).
Proof.
  intros Hlen.
  assert (Hq : Forall (fun c => is_network_call c = false) (config_calls tls)).
  { destruct tls; simpl; repeat constructor. }
  rewrite send_to_adafruit_io_checked.
  destruct (config_in_use e tls) as [c|].
  - destruct (calloc_ok e); cbn [negb].
    + cbv zeta. rewrite (request_too_long_oversize _ Hlen).
      eexists. repeat split. exact Hq.
    + eexists. repeat split. exact Hq.
  - eexists. repeat split. exact Hq.
Qed.

Lemma oversize_request_rejected_witness :
  512 <= strlen (composed_message default_env long_feed_key "23.46") /\
  exists o,
    send_to_adafruit_io default_env None long_feed_key "23.46" [deadline] = Some o /\
    returned o = false /\
    trace o = [altcp_tls_create_config_client] /\
    Forall (fun c => is_network_call c = false) (trace o).
Proof.
  assert (H : 512 <= strlen (composed_message default_env long_feed_key "23.46")).
  { apply Z.leb_le. vm_compute. reflexivity. }
  split; [exact H|].
  apply (oversize_request_rejected default_env None long_feed_key "23.46" [deadline] H).
Defined.

(** ** The wait loop giving up *)

(** C3 fails on the code: when the wait loop reaches its deadline, the
    state is marked complete while its handle is still set, with the
    callbacks still registered on it, and nothing has been closed. *)
Theorem deadline_leaves_handle_open
    (e : env) (tls : option altcp_tls_config)
    (feed_key value_text : string) (script : list step) :
  uplink_opens e tls feed_key value_text ->
  dns_res e = ERR_INPROGRESS ->
  exists o st h,
    send_to_adafruit_io e tls feed_key value_text (deadline :: script) = Some o /\
    freed_state o = Some st /\
    complete st = true /\
    pcb st = Some h /\ cb_arg h = true /\ cb_recv h = true /\
    ~ In altcp_close (trace o) /\ ~ In altcp_abort (trace o).
Proof.
  intros Hopens Hdns.
  rewrite (send_to_adafruit_io_opened _ _ _ _ _ Hopens).
  destruct Hopens as (Hconf & Hcalloc & Hnew & _ & Hfit).
  unfold exec. rewrite http_post_open_exec, Hnew, Hdns. cbn [is_ERR_OK is_ERR_INPROGRESS snd].
  cbv zeta. simpl wait_loop.
  do 3 eexists. split; [reflexivity|]. simpl.
  repeat split.
  - unfold config_calls. destruct tls; simpl; intuition congruence.
  - unfold config_calls. destruct tls; simpl; intuition congruence.
Qed.

Lemma deadline_leaves_handle_open_witness :
  exists o st h,
    send_to_adafruit_io default_env (Some 1) "bmp280-temp" "23.46" [deadline] = Some o /\
    freed_state o = Some st /\
    complete st = true /\
    pcb st = Some h /\ cb_arg h = true /\ cb_recv h = true /\
    ~ In altcp_close (trace o) /\ ~ In altcp_abort (trace o).
Proof.
  apply (deadline_leaves_handle_open default_env (Some 1) "bmp280-temp" "23.46" []).
  - unfold uplink_opens. simpl.
    repeat split; try discriminate; try reflexivity.
    right. reflexivity.
  - reflexivity.
Defined.

(** ** Invariants of the callbacks *)

Ltac exec_callbacks :=
  repeat (rewrite ?http_post_dns_found_exec, ?http_post_connect_to_server_ip_exec,
            ?http_post_connected_exec, ?http_post_recv_data_exec,
            ?http_post_recv_eof_exec, ?http_post_err_exec, ?http_post_poll_exec,
            ?http_post_close_exec;
          cbv zeta).

Ltac split_branches :=
  repeat match goal with
         | |- context [if ?b then _ else _] => destruct b eqn:?
         | |- context [match ?x with Some _ => _ | None => _ end] => destruct x eqn:?
         end.

Ltac dispatch_cases ev w h :=
  rewrite dispatch_exec;
  destruct (pcb (state w)) as [h|] eqn:Hpcb;
  [ destruct ev as [[ip|]|err|[p|]|err|]; exec_callbacks; split_branches;
    exec_callbacks; simpl in *
  | ].

(** Every callback that completes the state also clears its handle: on the
    callback paths a complete state has no handle. *)
Lemma dispatch_handle_hygiene (e : env) (ev : event) (w : world) :
  (complete (state w) = true -> pcb (state w) = None) ->
  complete (state (exec (dispatch e ev) w)) = true ->
  pcb (state (exec (dispatch e ev) w)) = None.
Proof.
  intros Hinv.
  dispatch_cases ev w h; try reflexivity; try (intros Hc; specialize (Hinv Hc); congruence).
Qed.

Lemma dispatch_complete_mono (e : env) (ev : event) (w : world) :
  complete (state w) = true -> complete (state (exec (dispatch e ev) w)) = true.
Proof.
  intros Hc.
  dispatch_cases ev w h; try reflexivity; try assumption.
Qed.

(** While the state is not complete, its handle is open and the poll
    callback is due: callbacks keep it so. *)
Lemma dispatch_armed (e : env) (ev : event) (interval : Z) (w : world) :
  (complete (state w) = false -> armed interval w) ->
  complete (state (exec (dispatch e ev) w)) = false ->
  armed interval (exec (dispatch e ev) w).
Proof.
  intros Hinv. unfold armed in *.
  dispatch_cases ev w h; try discriminate.
  all: intros Hc; specialize (Hinv Hc); destruct Hinv as (h' & Hh & Hpoll & Hrange).
  all: try rewrite Hpcb in Hh.
  all: inversion Hh; subst h'.
  all: try (exists h; split; [exact Hpcb|]; split; [assumption|]; lia).
  all: try congruence.
  eexists. split; [reflexivity|]. simpl.
  assert (z = interval) by congruence. subst z.
  split; [reflexivity|]. lia.
Qed.

Lemma run_cons (e : env) (ev : event) (evs : list event) (w : world) :
  exec (run e (ev :: evs)) w = exec (run e evs) (exec (dispatch e ev) w).
Proof. simpl. apply exec_seq. Qed.

Lemma run_armed (e : env) (interval : Z) (evs : list event) :
  forall w,
    (complete (state w) = false -> armed interval w) ->
    complete (state (exec (run e evs) w)) = false ->
    armed interval (exec (run e evs) w).
Proof.
  induction evs as [|ev evs IH]; intros w Hinv.
  - exact Hinv.
  - rewrite run_cons. apply IH. apply dispatch_armed. exact Hinv.
Qed.

(** [http_post_open] registers the poll callback with an interval of twice
    the timeout, as a [u8_t], before anything else can happen. *)
Lemma http_post_open_armed (e : env) (hostname : string) (w : world) :
  0 < uint8 (timeout (state w) * 2) ->
  eval (http_post_open e hostname) w = true ->
  complete (state (exec (http_post_open e hostname) w)) = false ->
  armed (uint8 (timeout (state w) * 2)) (exec (http_post_open e hostname) w).
Proof.
  intros Hpos. unfold eval, exec, armed. rewrite http_post_open_exec.
  destruct (tls_new_ok e); cbv zeta; simpl fst; simpl snd; [|discriminate].
  intros _.
  exec_callbacks. split_branches; exec_callbacks; simpl; try discriminate;
    intros _; eexists; (split; [reflexivity|]); simpl; (split; [reflexivity|]); lia.
Qed.

Lemma tick_counts (e : env) (interval : Z) (w : world) (h : altcp_pcb) :
  pcb (state w) = Some h -> cb_poll h = Some interval ->
  polltmr h + 1 < interval ->
  exec (dispatch e ev_tick) w =
  mk_world (tls_config w)
           (set_pcb (Some (mk_pcb (pcb_conf h) (cb_arg h) (cb_poll h)
                                  (cb_recv h) (cb_err h) (polltmr h + 1)))
                    (state w))
           (calls w).
Proof.
  intros Hp Hi Hlt. rewrite dispatch_exec, Hp, Hi.
  destruct (polltmr h + 1 >=? interval) eqn:E; [lia | reflexivity].
Qed.

Lemma tick_fires (e : env) (interval : Z) (w : world) (h : altcp_pcb) :
  pcb (state w) = Some h -> cb_poll h = Some interval ->
  interval <= polltmr h + 1 ->
  exec (dispatch e ev_tick) w =
  mk_world (tls_config w)
           (set_pcb None (set_complete true (set_error (PICO_ERROR_TIMEOUT e) (state w))))
           (calls w ++ teardown e).
Proof.
  intros Hp Hi Hle. rewrite dispatch_exec, Hp, Hi.
  destruct (polltmr h + 1 >=? interval) eqn:E; [|lia].
  rewrite http_post_poll_exec. reflexivity.
Qed.

(** Before the interval has elapsed, timer shots do not complete the
    state. *)
Lemma ticks_wait (e : env) (interval : Z) (m : nat) :
  forall (w : world) (h : altcp_pcb),
    pcb (state w) = Some h -> cb_poll h = Some interval ->
    polltmr h + Z.of_nat m < interval ->
    complete (state (exec (ticks e m) w)) = complete (state w).
Proof.
  unfold ticks.
  induction m as [|m IH]; intros w h Hp Hi Hlt; [reflexivity|].
  simpl repeat. rewrite run_cons.
  rewrite (tick_counts e interval w h Hp Hi) by lia.
  erewrite IH; [reflexivity | reflexivity | exact Hi | simpl; lia].
Qed.

(** When the interval elapses, the poll callback records the timeout and
    closes the handle. *)
Lemma ticks_fire (e : env) (interval : Z) (n : nat) :
  forall (w : world) (h : altcp_pcb),
    pcb (state w) = Some h -> cb_poll h = Some interval ->
    (0 < n)%nat -> polltmr h + Z.of_nat n = interval ->
    exec (ticks e n) w =
    mk_world (tls_config w)
             (set_pcb None (set_complete true (set_error (PICO_ERROR_TIMEOUT e) (state w))))
             (calls w ++ teardown e).
Proof.
  unfold ticks.
  induction n as [|n IH]; intros w h Hp Hi Hpos Hsum; [lia|].
  simpl repeat. rewrite run_cons.
  destruct n as [|n].
  - rewrite (tick_fires e interval w h Hp Hi) by lia. reflexivity.
  - rewrite (tick_counts e interval w h Hp Hi) by lia.
    erewrite IH; [reflexivity | reflexivity | exact Hi | lia | simpl polltmr; lia].
Qed.

(** ** Counting timer shots *)

Lemma run_complete_mono (e : env) (evs : list event) :
  forall w, complete (state w) = true -> complete (state (exec (run e evs) w)) = true.
Proof.
  induction evs as [|ev evs IH]; intros w Hc; [exact Hc|].
  rewrite run_cons. apply IH, dispatch_complete_mono, Hc.
Qed.

Lemma run_incomplete_head (e : env) (ev : event) (evs : list event) (w : world) :
  complete (state (exec (run e (ev :: evs)) w)) = false ->
  complete (state (exec (dispatch e ev) w)) = false.
Proof.
  rewrite run_cons. intros Hc.
  destruct (complete (state (exec (dispatch e ev) w))) eqn:E; [|reflexivity].
  rewrite (run_complete_mono e evs _ E) in Hc. discriminate.
Qed.

Lemma timer_shots_cons (ev : event) (evs : list event) :
  Z.of_nat (timer_shots (ev :: evs)) =
  (if is_timer_shot ev then 1 else 0) + Z.of_nat (timer_shots evs).
Proof.
  unfold timer_shots. simpl filter.
  destruct (is_timer_shot ev); [simpl List.length; lia | reflexivity].
Qed.

(** Only a timer shot moves the count of the poll timer, by one, and the
    poll callback has not run while the state is not complete: no other
    callback restarts the count. *)
Lemma dispatch_counted (e : env) (ev : event) (interval c : Z) (w : world) :
  counted interval c w ->
  complete (state (exec (dispatch e ev) w)) = false ->
  counted interval (c + (if is_timer_shot ev then 1 else 0)) (exec (dispatch e ev) w) /\
  (is_timer_shot ev = true -> c + 1 < interval).
Proof.
  intros (h0 & Hh & Hpoll & Hc). unfold counted.
  dispatch_cases ev w h; try discriminate.
  all: inversion Hh; subst h0.
  all: intros Hinc.
  all: try (split; [exists h; split; [exact Hpcb|]; split; [assumption|]; simpl; lia
                   | simpl; discriminate]).
  all: try congruence.
  assert (z = interval) by congruence. subst z.
  rewrite Z.geb_leb in Heqb0. apply Z.leb_gt in Heqb0.
  split.
  - eexists. split; [reflexivity|]. simpl. split; [reflexivity | lia].
  - intros _. lia.
Qed.

Lemma run_counted (e : env) (interval : Z) (evs : list event) :
  forall (w : world) (c : Z),
    counted interval c w ->
    complete (state (exec (run e evs) w)) = false ->
    counted interval (c + Z.of_nat (timer_shots evs)) (exec (run e evs) w) /\
    (c < interval -> c + Z.of_nat (timer_shots evs) < interval).
Proof.
  induction evs as [|ev evs IH]; intros w c Hcount Hc.
  - change (exec (run e []) w) with w. unfold timer_shots. simpl.
    rewrite Z.add_0_r. split; [exact Hcount | trivial].
  - pose proof (run_incomplete_head e ev evs w Hc) as Hc1.
    destruct (dispatch_counted e ev interval c w Hcount Hc1) as [Hcount1 Hshot].
    rewrite run_cons in Hc |- *.
    destruct (IH _ _ Hcount1 Hc) as [Hcount2 Hlt].
    rewrite timer_shots_cons, Z.add_assoc.
    split; [exact Hcount2|].
    intros Hci. apply Hlt.
    destruct (is_timer_shot ev); [apply Hshot; reflexivity | lia].
Qed.

(** [http_post_open] registers the poll callback with an interval of twice
    the timeout, as a [u8_t], and no timer shot has been counted yet. *)
Lemma http_post_open_counted (e : env) (hostname : string) (w : world) :
  eval (http_post_open e hostname) w = true ->
  complete (state (exec (http_post_open e hostname) w)) = false ->
  counted (uint8 (timeout (state w) * 2)) 0 (exec (http_post_open e hostname) w).
Proof.
  unfold eval, exec, counted. rewrite http_post_open_exec.
  destruct (tls_new_ok e); cbv zeta; simpl fst; simpl snd; [|discriminate].
  intros _.
  exec_callbacks. split_branches; exec_callbacks; simpl; try discriminate;
    intros _; eexists; (split; [reflexivity|]); simpl; split; reflexivity.
Qed.

(** ** Timeout convergence *)

(** C6: [http_post_open] registers the poll callback with twice the
    configured timeout, and the transport counts timer shots towards it
    from then on, whatever other callbacks it delivers in between.  From
    every state an uplink can be in after [http_post_open] and any run of
    callbacks, while it is not complete: fewer shots than twice the
    timeout have been counted; if only timer shots follow, the poll
    callback runs at the shot that brings the count to exactly twice the
    timeout, and not before; it records PICO_ERROR_TIMEOUT, tears the
    handle down (callbacks unregistered, close, abort if the close fails)
    and leaves the state complete with no handle.  So the state is
    complete within twice the timeout in timer shots, and after exactly
    that many when none had been counted. *)
Theorem timeout_convergence
    (e : env) (hostname : string) (w0 : world) (evs : list event) :
  0 < timeout (state w0) <= 127 ->
  eval (http_post_open e hostname) w0 = true ->
  let w := exec (run e evs) (exec (http_post_open e hostname) w0) in
  complete (state w) = false ->
  let n := Z.to_nat (timeout (state w0) * 2 - Z.of_nat (timer_shots evs)) in
  counted (timeout (state w0) * 2) (Z.of_nat (timer_shots evs)) w /\
  Z.of_nat (timer_shots evs) + Z.of_nat n = timeout (state w0) * 2 /\
  (0 < n)%nat /\
  (forall m : nat, (m < n)%nat -> complete (state (exec (ticks e m) w)) = false) /\
  let w' := exec (ticks e n) w in
  complete (state w') = true /\
  error (state w') = PICO_ERROR_TIMEOUT e /\
  pcb (state w') = None /\
  calls w' = calls w ++ teardown e.
Proof.
  intros Ht Hopen w Hc n.
  assert (Hi : uint8 (timeout (state w0) * 2) = timeout (state w0) * 2).
  { unfold uint8. apply Z.mod_small. lia. }
  assert (Hopened : counted (timeout (state w0) * 2) 0 (exec (http_post_open e hostname) w0)).
  { rewrite <- Hi. apply http_post_open_counted; [exact Hopen|].
    destruct (complete (state (exec (http_post_open e hostname) w0))) eqn:E; [|reflexivity].
    unfold w in Hc. rewrite (run_complete_mono e evs _ E) in Hc. discriminate. }
  destruct (run_counted e _ evs _ 0 Hopened Hc) as [Hcount Hlt].
  rewrite Z.add_0_l in Hcount, Hlt. fold w in Hcount.
  assert (Hshots : Z.of_nat (timer_shots evs) < timeout (state w0) * 2) by (apply Hlt; lia).
  split; [exact Hcount|].
  destruct Hcount as (h & Hp & Hpoll & Hpt).
  split; [unfold n; lia|]. split; [unfold n; lia|]. split.
  - intros m Hm.
    rewrite (ticks_wait e _ m w h Hp Hpoll) by (unfold n in Hm; lia). exact Hc.
  - cbv zeta.
    rewrite (ticks_fire e _ _ w h Hp Hpoll) by (unfold n; lia).
    simpl. repeat split.
Qed.

Lemma timeout_convergence_witness :
  let w0 := initial_world default_env (Some 1) "bmp280-temp" "23.46" in
  let evs := [ev_dns_found (Some 7); ev_tick; ev_connected ERR_OK; ev_tick;
              ev_recv (Some (status_line 200 " OK")); ev_tick] in
  let w := exec (run default_env evs)
                (exec (http_post_open default_env "io.adafruit.com") w0) in
  counted 30 3 w /\
  3 + Z.of_nat 27 = 15 * 2 /\
  (0 < 27)%nat /\
  (forall m : nat, (m < 27)%nat -> complete (state (exec (ticks default_env m) w)) = false) /\
  let w' := exec (ticks default_env 27) w in
  complete (state w') = true /\
  error (state w') = -2 /\
  pcb (state w') = None /\
  calls w' = calls w ++ teardown default_env.
Proof.
  apply (timeout_convergence default_env "io.adafruit.com"
           (initial_world default_env (Some 1) "bmp280-temp" "23.46")
           [ev_dns_found (Some 7); ev_tick; ev_connected ERR_OK; ev_tick;
            ev_recv (Some (status_line 200 " OK")); ev_tick]).
  - simpl. lia.
  - reflexivity.
  - reflexivity.
Defined.

(** Straight after [http_post_open], with a timeout of 15, the poll
    callback runs at the thirtieth timer shot. *)
Example poll_fires_at_thirty :
  let w := exec (http_post_open default_env "io.adafruit.com")
                (initial_world default_env (Some 1) "bmp280-temp" "23.46") in
  complete (state (exec (ticks default_env 29) w)) = false /\
  complete (state (exec (ticks default_env 30) w)) = true /\
  error (state (exec (ticks default_env 30) w)) = -2.
Proof. vm_compute. repeat split. Qed.

(** The count is not restarted by other callbacks: after 29 timer shots,
    then the resolved address, the connect and a 200 response, the next
    timer shot runs the poll callback. *)
Example poll_count_not_restarted :
  let w := exec (run default_env
                     (repeat ev_tick 29 ++
                      [ev_dns_found (Some 7); ev_connected ERR_OK;
                       ev_recv (Some (status_line 200 " OK"))]))
                (exec (http_post_open default_env "io.adafruit.com")
                      (initial_world default_env (Some 1) "bmp280-temp" "23.46")) in
  complete (state w) = false /\
  error (state w) = 0 /\
  complete (state (exec (ticks default_env 1) w)) = true /\
  error (state (exec (ticks default_env 1) w)) = -2.
Proof. vm_compute. repeat split. Qed.

(** ** The shared TLS configuration *)

Lemma keeps_refl (w : world) : keeps_tls_config w w.
Proof.
  split; [reflexivity|]. exists []. rewrite app_nil_r. split; [reflexivity | intros []].
Qed.

Lemma keeps_trans (w1 w2 w3 : world) :
  keeps_tls_config w1 w2 -> keeps_tls_config w2 w3 -> keeps_tls_config w1 w3.
Proof.
  intros [Ht1 (l1 & Hc1 & Hn1)] [Ht2 (l2 & Hc2 & Hn2)].
  split; [congruence|].
  exists (l1 ++ l2). split.
  - rewrite Hc2, Hc1, app_assoc. reflexivity.
  - intros Hin. apply in_app_or in Hin. tauto.
Qed.

Lemma keeps_calls (w : world) (st : HTTP_POST_STATE_T) (l : list io_call) :
  ~ In altcp_tls_free_config l ->
  keeps_tls_config w (mk_world (tls_config w) st (calls w ++ l)).
Proof. intros Hn. split; [reflexivity|]. exists l. split; [reflexivity | exact Hn]. Qed.

Lemma keeps_state (w : world) (st : HTTP_POST_STATE_T) :
  keeps_tls_config w (mk_world (tls_config w) st (calls w)).
Proof.
  split; [reflexivity|]. exists []. simpl. rewrite app_nil_r.
  split; [reflexivity | intros []].
Qed.

Lemma teardown_frees_nothing (e : env) : ~ In altcp_tls_free_config (teardown e).
Proof.
  unfold teardown. destruct (is_ERR_OK (close_res e)); simpl; intuition discriminate.
Qed.

Lemma http_post_close_keeps (e : env) (w : world) :
  keeps_tls_config w (exec (http_post_close e) w).
Proof.
  rewrite http_post_close_exec. apply keeps_calls.
  destruct (pcb (state w)); [apply teardown_frees_nothing | intros []].
Qed.

Lemma http_post_connect_to_server_ip_keeps (e : env) (w : world) :
  keeps_tls_config w (exec (http_post_connect_to_server_ip e) w).
Proof.
  rewrite http_post_connect_to_server_ip_exec. cbv zeta.
  assert (H1 : keeps_tls_config w
                 (mk_world (tls_config w) (state w) (calls w ++ [altcp_connect 443]))).
  { apply keeps_calls. simpl. intuition discriminate. }
  destruct (is_ERR_OK (connect_res e) || is_ERR_INPROGRESS (connect_res e)); [exact H1|].
  eapply keeps_trans; [exact H1 | apply http_post_close_keeps].
Qed.

Lemma dispatch_keeps (e : env) (ev : event) (w : world) :
  keeps_tls_config w (exec (dispatch e ev) w).
Proof.
  rewrite dispatch_exec.
  destruct (pcb (state w)) as [h|] eqn:Hpcb; [|apply keeps_refl].
  destruct ev as [[ip|]|err|[p|]|err|].
  - apply http_post_connect_to_server_ip_keeps.
  - rewrite http_post_dns_found_exec. apply http_post_close_keeps.
  - rewrite http_post_connected_exec. cbv zeta.
    assert (H1 : keeps_tls_config w
                   (mk_world (tls_config w) (state w)
                             (calls w ++ [altcp_write (http_request (state w))]))).
    { apply keeps_calls. simpl. intuition discriminate. }
    destruct (is_ERR_OK err); [|apply http_post_close_keeps].
    destruct (is_ERR_OK (write_res e)); [exact H1|].
    eapply keeps_trans; [exact H1 | apply http_post_close_keeps].
  - destruct (cb_recv h); [|apply keeps_refl].
    rewrite http_post_recv_data_exec.
    destruct (tot_len p >? 0); apply keeps_calls; simpl; intuition discriminate.
  - destruct (cb_recv h); [|apply keeps_refl].
    rewrite http_post_recv_eof_exec. apply keeps_calls.
    rewrite Hpcb. apply teardown_frees_nothing.
  - destruct (cb_err h); [|apply keeps_refl].
    rewrite http_post_err_exec. apply keeps_calls.
    rewrite Hpcb. apply teardown_frees_nothing.
  - destruct (cb_poll h) as [interval|]; [|apply keeps_refl].
    destruct (polltmr h + 1 >=? interval); [|apply keeps_state].
    eapply keeps_trans; [apply keeps_state|].
    rewrite http_post_poll_exec. apply keeps_calls. simpl.
    apply teardown_frees_nothing.
Qed.

Lemma wait_loop_keeps (e : env) (script : list step) :
  forall w w', wait_loop e script w = Some w' -> keeps_tls_config w w'.
Proof.
  induction script as [|s script IH]; intros w w' H; simpl in H.
  - destruct (complete (state w)); [|discriminate].
    injection H as <-. apply keeps_refl.
  - destruct (complete (state w)).
    + injection H as <-. apply keeps_refl.
    + destruct s as [ev|].
      * eapply keeps_trans; [apply dispatch_keeps | apply IH, H].
      * injection H as <-. unfold exec, bind, modify. simpl. apply keeps_state.
Qed.

Lemma http_post_open_keeps (e : env) (hostname : string) (w : world) :
  keeps_tls_config w (exec (http_post_open e hostname) w).
Proof.
  unfold exec. rewrite http_post_open_exec.
  destruct (tls_new_ok e); cbv zeta; simpl snd.
  - match goal with
    | |- context [exec _ ?w1] =>
        assert (H1 : keeps_tls_config w w1)
          by (apply keeps_calls; simpl; intuition discriminate)
    end.
    destruct (is_ERR_OK (dns_res e)).
    + eapply keeps_trans; [exact H1 | apply http_post_connect_to_server_ip_keeps].
    + destruct (is_ERR_INPROGRESS (dns_res e)); [exact H1|].
      eapply keeps_trans; [exact H1 | apply http_post_close_keeps].
  - apply keeps_calls. simpl. intuition discriminate.
Qed.

(** The wait loop ends once its deadline is reached. *)
Lemma wait_loop_deadline (e : env) (script : list step) :
  forall w, In deadline script -> exists w', wait_loop e script w = Some w'.
Proof.
  induction script as [|s script IH]; intros w Hin; [destruct Hin|].
  simpl. destruct (complete (state w)); [eexists; reflexivity|].
  destruct s as [ev|]; [|eexists; reflexivity].
  apply IH. destruct Hin as [H|H]; [discriminate | exact H].
Qed.

(** C9: whatever happens to one uplink, [send_to_adafruit_io] leaves the
    global TLS configuration as the pointer the uplink used (the one it
    was given, when there was one) and makes no call that frees a TLS
    configuration, whether it returns true or false; and it does return
    once the deadline of the wait loop is reached. The configuration is
    never released, so never before a state that refers to it is
    complete. *)
Theorem tls_config_survives_uplink
    (e : env) (tls : option altcp_tls_config)
    (feed_key value_text : string) (script : list step) :
  (forall o,
      send_to_adafruit_io e tls feed_key value_text script = Some o ->
      tls_config_after o = config_in_use e tls /\
      ~ In altcp_tls_free_config (trace o)) /\
  (In deadline script ->
   exists o, send_to_adafruit_io e tls feed_key value_text script = Some o).
Proof.
  assert (Hcfg : ~ In altcp_tls_free_config (config_calls tls)).
  { destruct tls; simpl; intuition discriminate. }
  rewrite send_to_adafruit_io_checked.
  destruct (config_in_use e tls) as [c|] eqn:Hc.
  2: { split; [|eexists; reflexivity].
       intros o Ho. injection Ho as <-. simpl. split; [reflexivity | exact Hcfg]. }
  destruct (calloc_ok e); cbn [negb].
  2: { split; [|eexists; reflexivity].
       intros o Ho. injection Ho as <-. simpl. split; [reflexivity | exact Hcfg]. }
  cbv zeta.
  destruct (request_too_long (snd (snprintf 512 (composed_message e feed_key value_text)))).
  { split; [|eexists; reflexivity].
    intros o Ho. injection Ho as <-. simpl. split; [reflexivity | exact Hcfg]. }
  pose proof (http_post_open_keeps e "io.adafruit.com"
                (initial_world e tls feed_key value_text)) as Hopen.
  set (w := exec (http_post_open e "io.adafruit.com")
                 (initial_world e tls feed_key value_text)) in *.
  clearbody w.
  assert (Hinit : forall w', keeps_tls_config w w' ->
                  tls_config w' = Some c /\ ~ In altcp_tls_free_config (calls w')).
  { intros w' Hk.
    destruct (keeps_trans _ _ _ Hopen Hk) as [Ht (l & Hl & Hn)].
    unfold initial_world in Ht, Hl. cbn [tls_config calls] in Ht, Hl. rewrite Hc in Ht.
    split; [exact Ht|].
    rewrite Hl. intros Hin. apply in_app_or in Hin. tauto. }
  destruct (eval (http_post_open e "io.adafruit.com")
                 (initial_world e tls feed_key value_text)); cbn [negb].
  - split.
    + intros o Ho.
      destruct (wait_loop e script w) as [w'|] eqn:Hw; [|discriminate].
      injection Ho as <-. simpl.
      apply Hinit. eapply wait_loop_keeps. exact Hw.
    + intros Hin.
      destruct (wait_loop_deadline e script w Hin) as [w' Hw].
      rewrite Hw. eexists. reflexivity.
  - split; [|eexists; reflexivity].
    intros o Ho. injection Ho as <-. simpl. apply Hinit. apply keeps_refl.
Qed.

Lemma tls_config_survives_uplink_witness :
  In deadline [callback (ev_dns_found None); deadline] /\
  exists o,
    send_to_adafruit_io default_env (Some 1) "bmp280-temp" "23.46"
                        [callback (ev_dns_found None); deadline] = Some o /\
    tls_config_after o = Some 1 /\
    ~ In altcp_tls_free_config (trace o).
Proof.
  assert (Hin : In deadline [callback (ev_dns_found None); deadline]).
  { simpl. right. left. reflexivity. }
  split; [exact Hin|].
  destruct (proj2 (tls_config_survives_uplink default_env (Some 1) "bmp280-temp" "23.46"
                     [callback (ev_dns_found None); deadline]) Hin) as [o Ho].
  exists o. split; [exact Ho|].
  apply (proj1 (tls_config_survives_uplink default_env (Some 1) "bmp280-temp" "23.46"
                  [callback (ev_dns_found None); deadline]) o Ho).
Defined.

(** ** Unexpected status *)

Lemma set_error_same (st : HTTP_POST_STATE_T) : set_error (error st) st = st.
Proof. destruct st. reflexivity. Qed.

Lemma http_post_connect_to_server_ip_error (e : env) (w : world) :
  error (state (exec (http_post_connect_to_server_ip e) w)) = error (state w).
Proof.
  rewrite http_post_connect_to_server_ip_exec. cbv zeta.
  destruct (is_ERR_OK (connect_res e) || is_ERR_INPROGRESS (connect_res e));
    [reflexivity|].
  rewrite http_post_close_exec. reflexivity.
Qed.

(** A step that records no error leaves an error code of 0 at 0. *)
Lemma dispatch_no_error (e : env) (ev : event) (w : world) :
  records_no_error (callback ev) = true ->
  error (state w) = 0 ->
  error (state (exec (dispatch e ev) w)) = 0.
Proof.
  intros Hq H0. rewrite dispatch_exec.
  destruct (pcb (state w)) as [h|]; [|exact H0].
  destruct ev as [[ip|]|err|[p|]|err|]; simpl in Hq; try discriminate.
  - rewrite http_post_dns_found_exec, http_post_connect_to_server_ip_error. exact H0.
  - rewrite http_post_dns_found_exec, http_post_close_exec. exact H0.
  - rewrite http_post_connected_exec. cbv zeta.
    destruct (is_ERR_OK err); [destruct (is_ERR_OK (write_res e))|];
      rewrite ?http_post_close_exec; exact H0.
  - destruct (cb_recv h); [|exact H0].
    rewrite http_post_recv_data_exec.
    destruct (tot_len p >? 0); [|exact H0].
    rewrite classify_response_prefix in Hq. simpl.
    destruct (classify_status p); simpl; try discriminate; [reflexivity | exact H0].
  - destruct (cb_recv h); [|exact H0].
    rewrite http_post_recv_eof_exec. reflexivity.
Qed.

Lemma http_post_open_error (e : env) (hostname : string) (w : world) :
  error (state (exec (http_post_open e hostname) w)) = error (state w).
Proof.
  unfold exec. rewrite http_post_open_exec.
  destruct (tls_new_ok e); cbv zeta; simpl snd; [|reflexivity].
  destruct (is_ERR_OK (dns_res e)).
  - rewrite http_post_connect_to_server_ip_error. reflexivity.
  - destruct (is_ERR_INPROGRESS (dns_res e)); [reflexivity|].
    rewrite http_post_close_exec. reflexivity.
Qed.

(** * Further properties *)

(** ** Sensor registers *)

(** Bits that do not overlap are added by [|]. *)
Lemma lor_disjoint (hi lo k : Z) :
  0 <= k -> 0 <= lo < 2 ^ k -> Z.lor (hi * 2 ^ k) lo = hi * 2 ^ k + lo.
Proof.
  intros Hk Hlo.
  assert (Hland : Z.land (hi * 2 ^ k) lo = 0);
    [|rewrite <- (Z.lxor_lor _ _ Hland); symmetry; apply Z.add_nocarry_lxor, Hland].
  apply Z.bits_inj'. intros n Hn.
  rewrite Z.land_spec, Z.bits_0.
  destruct (Z.ltb_spec n k) as [Hlt|Hge].
  - rewrite Z.mul_pow2_bits_low by lia. reflexivity.
  - destruct (Z.eq_dec lo 0) as [->|Hnz]; [rewrite Z.bits_0; apply andb_false_r|].
    rewrite (Z.bits_above_log2 lo n); [apply andb_false_r | lia |].
    apply Z.log2_lt_pow2; [lia|].
    apply Z.lt_le_trans with (2 ^ k); [lia|].
    apply Z.pow_le_mono_r; lia.
Qed.

Lemma byte_at_is_byte (buf : list Z) (i : nat) :
  Forall is_byte buf -> is_byte (byte_at buf i).
Proof.
  intros H. unfold byte_at.
  destruct (nth_in_or_default i buf 0) as [Hin | ->].
  - rewrite Forall_forall in H. apply H, Hin.
  - unfold is_byte. lia.
Qed.

(** Three bytes in the sensor's layout, read as [bmp280_read_raw] does. *)
Lemma sample_value (b0 b1 b2 : Z) :
  is_byte b0 -> is_byte b1 -> is_byte b2 ->
  sint32 (Z.lor (Z.lor (Z.shiftl b0 12) (Z.shiftl b1 4)) (Z.shiftr b2 4)) =
  b0 * 4096 + b1 * 16 + b2 / 16.
Proof.
  unfold is_byte. intros H0 H1 H2.
  rewrite !Z.shiftl_mul_pow2, Z.shiftr_div_pow2 by lia.
  assert (Hq : 0 <= b2 / 2 ^ 4 < 2 ^ 4).
  { change (2 ^ 4) with 16. split; [apply Z.div_pos; lia|].
    apply Z.div_lt_upper_bound; lia. }
  rewrite (lor_disjoint b0 (b1 * 2 ^ 4) 12) by (change (2 ^ 4) with 16; change (2 ^ 12) with 4096; lia).
  replace (b0 * 2 ^ 12 + b1 * 2 ^ 4) with ((b0 * 256 + b1) * 2 ^ 4)
    by (change (2 ^ 4) with 16; change (2 ^ 12) with 4096; lia).
  rewrite lor_disjoint by (lia || exact Hq).
  change (2 ^ 4) with 16 in *.
  rewrite sint32_id; [lia|]. unfold in_sint32. lia.
Qed.

Lemma sample_value_range (b0 b1 b2 : Z) :
  is_byte b0 -> is_byte b1 -> is_byte b2 ->
  0 <= b0 * 4096 + b1 * 16 + b2 / 16 < 1048576.
Proof.
  unfold is_byte. intros H0 H1 H2.
  assert (0 <= b2 / 16 < 16).
  { split; [apply Z.div_pos; lia | apply Z.div_lt_upper_bound; lia]. }
  lia.
Qed.

(** X1: whatever six bytes the sensor delivers, [bmp280_read_raw] stores
    20-bit values: both the raw temperature and the raw pressure are in
    0 .. 1048575. *)
Theorem bmp280_read_raw_range (buf : list Z) :
  Forall is_byte buf ->
  0 <= fst (bmp280_read_raw buf) < 1048576 /\
  0 <= snd (bmp280_read_raw buf) < 1048576.
Proof.
  intros Hb. unfold bmp280_read_raw. cbn [fst snd].
  rewrite !sample_value by (apply byte_at_is_byte, Hb).
  split; apply sample_value_range; apply byte_at_is_byte, Hb.
Qed.

Lemma bmp280_read_raw_range_witness :
  Forall is_byte [101; 90; 192; 126; 237; 0] /\
  0 <= fst (bmp280_read_raw [101; 90; 192; 126; 237; 0]) < 1048576 /\
  0 <= snd (bmp280_read_raw [101; 90; 192; 126; 237; 0]) < 1048576.
Proof.
  assert (H : Forall is_byte [101; 90; 192; 126; 237; 0]).
  { repeat constructor; unfold is_byte; lia. }
  split; [exact H|]. apply (bmp280_read_raw_range _ H).
Defined.

Lemma sample_bytes_are_bytes (v pad : Z) :
  0 <= v < 1048576 -> 0 <= pad < 16 -> Forall is_byte (sample_bytes v pad).
Proof.
  intros Hv Hp. unfold sample_bytes, is_byte.
  pose proof (Z.mod_pos_bound (v / 16) 256 ltac:(lia)).
  pose proof (Z.mod_pos_bound v 16 ltac:(lia)).
  assert (0 <= v / 4096 < 256).
  { split; [apply Z.div_pos; lia | apply Z.div_lt_upper_bound; lia]. }
  repeat constructor; lia.
Qed.

Lemma sample_bytes_value (v pad : Z) :
  0 <= v < 1048576 -> 0 <= pad < 16 ->
  v / 4096 * 4096 + (v / 16) mod 256 * 16 + ((v mod 16) * 16 + pad) / 16 = v.
Proof.
  intros Hv Hp.
  replace (((v mod 16) * 16 + pad) / 16) with (v mod 16).
  2: { rewrite Z.div_add_l by lia. rewrite (Z.div_small pad 16) by lia. lia. }
  assert (H1 : v / 4096 = v / 16 / 256) by (rewrite Z.div_div by lia; reflexivity).
  pose proof (Z.div_mod (v / 16) 256 ltac:(lia)).
  pose proof (Z.div_mod v 16 ltac:(lia)).
  lia.
Qed.

(** X2: [bmp280_read_raw] inverts the sensor's register layout: when the
    six bytes hold a 20-bit pressure and a 20-bit temperature, each as
    its upper 16 bits followed by its lower 4 bits in the upper half of
    a byte, the values stored are that temperature and that pressure,
    whatever the lower halves of the third and sixth byte hold. *)
Theorem bmp280_read_raw_sample_bytes (temp pressure pad_t pad_p : Z) :
  0 <= temp < 1048576 -> 0 <= pressure < 1048576 ->
  0 <= pad_t < 16 -> 0 <= pad_p < 16 ->
  bmp280_read_raw (sample_bytes pressure pad_p ++ sample_bytes temp pad_t) =
  (temp, pressure).
Proof.
  intros Ht Hp Hpt Hpp.
  pose proof (sample_bytes_are_bytes temp pad_t Ht Hpt) as Bt.
  pose proof (sample_bytes_are_bytes pressure pad_p Hp Hpp) as Bp.
  unfold sample_bytes in *.
  inversion_clear Bt as [|? ? Bt0 Bt']. inversion_clear Bt' as [|? ? Bt1 Bt''].
  inversion_clear Bt'' as [|? ? Bt2 _].
  inversion_clear Bp as [|? ? Bp0 Bp']. inversion_clear Bp' as [|? ? Bp1 Bp''].
  inversion_clear Bp'' as [|? ? Bp2 _].
  unfold bmp280_read_raw, byte_at. cbn [app nth].
  rewrite !sample_value by assumption.
  rewrite !sample_bytes_value by assumption. reflexivity.
Qed.

Lemma bmp280_read_raw_sample_bytes_witness :
  bmp280_read_raw (sample_bytes datasheet_raw_pressure 5 ++ sample_bytes datasheet_raw_temp 0) =
  (datasheet_raw_temp, datasheet_raw_pressure).
Proof.
  apply (bmp280_read_raw_sample_bytes datasheet_raw_temp datasheet_raw_pressure 0 5);
    unfold datasheet_raw_temp, datasheet_raw_pressure; lia.
Defined.

(** The two bytes of an unsigned coefficient: low byte plus 256 times the
    high byte. *)
Lemma calib_u16_value (hi lo : Z) :
  is_byte hi -> is_byte lo -> calib_u16 hi lo = hi * 256 + lo.
Proof.
  unfold is_byte, calib_u16, uint16. intros Hh Hl.
  rewrite Z.shiftl_mul_pow2 by lia. change (2 ^ 8) with 256.
  rewrite (Z.mod_small (hi * 256)) by lia.
  change 256 with (2 ^ 8) at 1. rewrite lor_disjoint by (change (2 ^ 8) with 256; lia).
  change (2 ^ 8) with 256. apply Z.mod_small. lia.
Qed.

(** The two bytes of a signed coefficient: the same sum, read as two's
    complement. *)
Lemma calib_s16_value (hi lo : Z) :
  is_byte hi -> is_byte lo ->
  calib_s16 hi lo = if hi <? 128 then hi * 256 + lo else hi * 256 + lo - 65536.
Proof.
  unfold is_byte, calib_s16. intros Hh Hl.
  rewrite Z.shiftl_mul_pow2 by lia. change (2 ^ 8) with 256.
  destruct (Z.ltb_spec hi 128) as [Hlt|Hge].
  - assert (E : sint16 (hi * 256) = hi * 2 ^ 8).
    { unfold sint16. rewrite Z.mod_small by lia. change (2 ^ 8) with 256. lia. }
    rewrite E, lor_disjoint by (change (2 ^ 8) with 256; lia).
    change (2 ^ 8) with 256. unfold sint16. rewrite Z.mod_small by lia. lia.
  - assert (E : sint16 (hi * 256) = (hi - 256) * 2 ^ 8).
    { unfold sint16.
      replace (hi * 256 + 32768) with (hi * 256 - 32768 + 1 * 65536) by lia.
      rewrite Z.mod_add by lia. rewrite Z.mod_small by lia.
      change (2 ^ 8) with 256. lia. }
    rewrite E, lor_disjoint by (change (2 ^ 8) with 256; lia).
    change (2 ^ 8) with 256. unfold sint16.
    replace ((hi - 256) * 256 + lo + 32768) with (hi * 256 + lo - 32768) by lia.
    rewrite Z.mod_small by lia. lia.
Qed.

Lemma calib_u16_range (hi lo : Z) : is_byte hi -> is_byte lo -> is_u16 (calib_u16 hi lo).
Proof.
  intros Hh Hl. rewrite calib_u16_value by assumption.
  unfold is_byte, is_u16 in *. lia.
Qed.

Lemma calib_s16_range (hi lo : Z) : is_byte hi -> is_byte lo -> is_s16 (calib_s16 hi lo).
Proof.
  intros Hh Hl. rewrite calib_s16_value by assumption.
  unfold is_byte, is_s16 in *. destruct (Z.ltb_spec hi 128); lia.
Qed.

(** X3: whatever 24 bytes the sensor delivers, [bmp280_get_calib_params]
    stores, for each coefficient, its two bytes read low byte first:
    as an unsigned number for [dig_t1] and [dig_p1], in two's complement
    for the others, although the cast to [int16_t] is applied to the
    shifted high byte alone; so every coefficient is in the range of its
    C type. *)
Theorem bmp280_get_calib_params_values (buf : list Z) :
  Forall is_byte buf ->
  bmp280_get_calib_params buf =
  mk_calib (unsigned_le (byte_at buf 1) (byte_at buf 0))
           (signed_le (byte_at buf 3) (byte_at buf 2))
           (signed_le (byte_at buf 5) (byte_at buf 4))
           (unsigned_le (byte_at buf 7) (byte_at buf 6))
           (signed_le (byte_at buf 9) (byte_at buf 8))
           (signed_le (byte_at buf 11) (byte_at buf 10))
           (signed_le (byte_at buf 13) (byte_at buf 12))
           (signed_le (byte_at buf 15) (byte_at buf 14))
           (signed_le (byte_at buf 17) (byte_at buf 16))
           (signed_le (byte_at buf 19) (byte_at buf 18))
           (signed_le (byte_at buf 21) (byte_at buf 20))
           (signed_le (byte_at buf 23) (byte_at buf 22)) /\
  calib_in_range (bmp280_get_calib_params buf).
Proof.
  intros Hb. split.
  - unfold bmp280_get_calib_params, unsigned_le, signed_le.
    rewrite !calib_u16_value, !calib_s16_value by (apply byte_at_is_byte, Hb).
    reflexivity.
  - unfold calib_in_range, bmp280_get_calib_params.
    cbn [dig_t1 dig_t2 dig_t3 dig_p1 dig_p2 dig_p3 dig_p4 dig_p5 dig_p6 dig_p7 dig_p8 dig_p9].
    repeat split;
      first [apply calib_u16_range | apply calib_s16_range];
      apply byte_at_is_byte, Hb.
Qed.

Lemma bmp280_get_calib_params_values_witness :
  Forall is_byte (calib_bytes datasheet_params) /\
  dig_t3 (bmp280_get_calib_params (calib_bytes datasheet_params)) = signed_le 252 24 /\
  calib_in_range (bmp280_get_calib_params (calib_bytes datasheet_params)).
Proof.
  assert (H : Forall is_byte (calib_bytes datasheet_params)).
  { vm_compute. repeat constructor; discriminate. }
  split; [exact H|].
  destruct (bmp280_get_calib_params_values _ H) as [Hv Hr].
  split; [rewrite Hv; reflexivity | exact Hr].
Defined.

Lemma coefficient_bytes_are_bytes (v : Z) :
  is_byte (v mod 256) /\ is_byte ((v mod 65536) / 256).
Proof.
  unfold is_byte.
  pose proof (Z.mod_pos_bound v 256 ltac:(lia)).
  pose proof (Z.mod_pos_bound v 65536 ltac:(lia)).
  assert (0 <= (v mod 65536) / 256 < 256).
  { split; [apply Z.div_pos; lia | apply Z.div_lt_upper_bound; lia]. }
  lia.
Qed.

Lemma coefficient_bytes_sum (v : Z) :
  (v mod 65536) / 256 * 256 + v mod 256 = v mod 65536.
Proof.
  pose proof (Z.div_mod (v mod 65536) 256 ltac:(lia)) as H.
  replace ((v mod 65536) mod 256) with (v mod 256) in H.
  2: { change 65536 with (256 * 256).
       rewrite Z.rem_mul_r by lia.
       rewrite (Z.mul_comm 256 ((v / 256) mod 256)), Z.mod_add by lia.
       rewrite Z.mod_mod by lia. reflexivity. }
  lia.
Qed.

Lemma calib_u16_coefficient_bytes (v : Z) :
  is_u16 v -> calib_u16 ((v mod 65536) / 256) (v mod 256) = v.
Proof.
  intros Hv. destruct (coefficient_bytes_are_bytes v) as [Hl Hh].
  rewrite calib_u16_value by assumption.
  rewrite coefficient_bytes_sum. unfold is_u16 in Hv. apply Z.mod_small. lia.
Qed.

Lemma calib_s16_coefficient_bytes (v : Z) :
  is_s16 v -> calib_s16 ((v mod 65536) / 256) (v mod 256) = v.
Proof.
  intros Hv. destruct (coefficient_bytes_are_bytes v) as [Hl Hh].
  rewrite calib_s16_value by assumption.
  rewrite coefficient_bytes_sum. unfold is_s16 in Hv.
  destruct (Z.ltb_spec ((v mod 65536) / 256) 128) as [Hlt|Hge].
  - assert (Hm : v mod 65536 < 32768).
    { pose proof (Z.div_mod (v mod 65536) 256 ltac:(lia)).
      pose proof (Z.mod_pos_bound (v mod 65536) 256 ltac:(lia)). lia. }
    destruct (Z_lt_le_dec v 0) as [Hneg|Hpos].
    + replace v with (v + 65536 + (-1) * 65536) in Hm by lia.
      rewrite Z.mod_add, Z.mod_small in Hm by lia. lia.
    + apply Z.mod_small. lia.
  - assert (Hm : 32768 <= v mod 65536).
    { pose proof (Z.div_mod (v mod 65536) 256 ltac:(lia)).
      pose proof (Z.mod_pos_bound (v mod 65536) 256 ltac:(lia)). lia. }
    destruct (Z_lt_le_dec v 0) as [Hneg|Hpos].
    + replace v with (v + 65536 + (-1) * 65536) at 1 by lia.
      rewrite Z.mod_add, Z.mod_small by lia. lia.
    + rewrite Z.mod_small in Hm by lia. lia.
Qed.

(** X4: [bmp280_get_calib_params] inverts the sensor's layout of the
    calibration block: from the 24 bytes that hold twelve coefficients,
    each in two's complement and low byte first, it stores exactly those
    coefficients, when each is in the range of its C type. *)
Theorem bmp280_get_calib_params_calib_bytes (p : bmp280_calib_param) :
  calib_in_range p -> bmp280_get_calib_params (calib_bytes p) = p.
Proof.
  intros (H1 & H2 & H3 & H4 & H5 & H6 & H7 & H8 & H9 & H10 & H11 & H12).
  destruct p. unfold bmp280_get_calib_params, calib_bytes, coefficient_bytes, byte_at.
  cbn [app nth dig_t1 dig_t2 dig_t3 dig_p1 dig_p2 dig_p3 dig_p4 dig_p5 dig_p6 dig_p7
       dig_p8 dig_p9] in *.
  rewrite !calib_u16_coefficient_bytes, !calib_s16_coefficient_bytes by assumption.
  reflexivity.
Qed.

Lemma bmp280_get_calib_params_calib_bytes_witness :
  calib_in_range datasheet_params /\
  bmp280_get_calib_params (calib_bytes datasheet_params) = datasheet_params.
Proof.
  assert (H : calib_in_range datasheet_params).
  { unfold calib_in_range, is_u16, is_s16. simpl. lia. }
  split; [exact H|]. apply (bmp280_get_calib_params_calib_bytes _ H).
Defined.

Lemma calib_zero (hi lo : Z) : hi = 0 -> lo = 0 -> calib_u16 hi lo = 0 /\ calib_s16 hi lo = 0.
Proof. intros -> ->. split; reflexivity. Qed.

(** X5: when the 24 bytes of the calibration block are all zero, as the
    buffer of [bmp280_get_calib_params] is before the read, every raw
    sample is converted to a temperature of 0 and a pressure of 0. *)
Theorem uncalibrated_readings_are_zero (buf : list Z) (pressure temp : Z) :
  (forall i : nat, byte_at buf i = 0) ->
  bmp280_convert_temp temp (bmp280_get_calib_params buf) = 0 /\
  bmp280_convert_pressure pressure temp (bmp280_get_calib_params buf) = Some 0.
Proof.
  intros Hz.
  assert (Hp : bmp280_get_calib_params buf = mk_calib 0 0 0 0 0 0 0 0 0 0 0 0).
  { unfold bmp280_get_calib_params. rewrite !Hz. reflexivity. }
  rewrite Hp. split.
  - unfold bmp280_convert_temp, bmp280_convert. cbn [dig_t1 dig_t2 dig_t3].
    unfold mul32 at 2 3. rewrite !Z.mul_0_r. reflexivity.
  - unfold bmp280_convert_pressure.
    assert (Hv : pressure_var1 temp (mk_calib 0 0 0 0 0 0 0 0 0 0 0 0) = 0).
    { unfold pressure_var1. cbn [dig_p1]. unfold mul32 at 1.
      rewrite Z.mul_0_r. reflexivity. }
    rewrite Hv. reflexivity.
Qed.

Lemma uncalibrated_readings_are_zero_witness :
  (forall i : nat, byte_at (repeat 0 24) i = 0) /\
  bmp280_convert_temp datasheet_raw_temp (bmp280_get_calib_params (repeat 0 24)) = 0 /\
  bmp280_convert_pressure datasheet_raw_pressure datasheet_raw_temp
    (bmp280_get_calib_params (repeat 0 24)) = Some 0.
Proof.
  assert (H : forall i : nat, byte_at (repeat 0 24) i = 0).
  { intros i. unfold byte_at.
    destruct (nth_in_or_default i (repeat 0 24) 0) as [Hin | E]; [|exact E].
    apply repeat_spec in Hin. exact Hin. }
  split; [exact H|].
  apply (uncalibrated_readings_are_zero (repeat 0 24)
           datasheet_raw_pressure datasheet_raw_temp H).
Defined.

(** ** Closing *)

(** X6: [http_post_close] marks the state complete and clears its handle
    without touching the error code, the request or the global TLS
    configuration, and closing a second time changes nothing: no second
    [altcp_close] is made. *)
Theorem http_post_close_idempotent (e : env) (w : world) :
  let w1 := exec (http_post_close e) w in
  exec (http_post_close e) w1 = w1 /\
  eval (http_post_close e) w1 = ERR_OK /\
  complete (state w1) = true /\ pcb (state w1) = None /\
  error (state w1) = error (state w) /\
  http_request (state w1) = http_request (state w) /\
  tls_config w1 = tls_config w.
Proof.
  intros w1.
  assert (E : w1 = mk_world (tls_config w)
                            (set_pcb None (set_complete true (state w)))
                            (calls w ++ match pcb (state w) with
                                        | Some _ => teardown e
                                        | None => []
                                        end))
    by apply http_post_close_exec.
  clearbody w1. subst w1.
  split; [|split].
  - rewrite http_post_close_exec. cbn [tls_config state calls pcb set_pcb].
    rewrite app_nil_r. reflexivity.
  - reflexivity.
  - repeat split.
Qed.

Lemma dispatch_null_complete (e : env) (ev : event) (w : world) :
  pcb (state w) <> None ->
  pcb (state (exec (dispatch e ev) w)) = None ->
  complete (state (exec (dispatch e ev) w)) = true.
Proof.
  intros Hsome.
  dispatch_cases ev w h; try reflexivity; try congruence.
Qed.

(** The handle is null exactly when the state is complete: every
    callback keeps it so. *)
Lemma dispatch_null_iff_complete (e : env) (ev : event) (w : world) :
  (complete (state w) = true <-> pcb (state w) = None) ->
  (complete (state (exec (dispatch e ev) w)) = true <->
   pcb (state (exec (dispatch e ev) w)) = None).
Proof.
  intros [Hcn Hnc]. split.
  - apply dispatch_handle_hygiene, Hcn.
  - intros Hn. destruct (pcb (state w)) as [h|] eqn:Hp.
    + apply dispatch_null_complete; [congruence | exact Hn].
    + apply dispatch_complete_mono, Hnc. reflexivity.
Qed.

Lemma run_null_iff_complete (e : env) (evs : list event) :
  forall w,
    (complete (state w) = true <-> pcb (state w) = None) ->
    (complete (state (exec (run e evs) w)) = true <->
     pcb (state (exec (run e evs) w)) = None).
Proof.
  induction evs as [|ev evs IH]; intros w Hinv; [exact Hinv|].
  rewrite run_cons. apply IH, dispatch_null_iff_complete, Hinv.
Qed.

Lemma http_post_open_null_iff_complete (e : env) (hostname : string) (w0 : world) :
  tls_new_ok e = true ->
  complete (state w0) = false ->
  complete (state (exec (http_post_open e hostname) w0)) = true <->
  pcb (state (exec (http_post_open e hostname) w0)) = None.
Proof.
  intros Hnew Hc.
  unfold exec at 1 2. rewrite http_post_open_exec, Hnew. cbv zeta. cbn [snd].
  exec_callbacks. split_branches; exec_callbacks; simpl;
    split; intros H; congruence.
Qed.

(** X7: once [http_post_open] has created the handle, then after any run
    of callbacks the handle of the state is null exactly when the state
    is complete. *)
Theorem callbacks_keep_handle_null_iff_complete
    (e : env) (hostname : string) (w0 : world) (evs : list event) :
  tls_new_ok e = true ->
  complete (state w0) = false ->
  let w := exec (run e evs) (exec (http_post_open e hostname) w0) in
  complete (state w) = true <-> pcb (state w) = None.
Proof.
  intros Hnew Hc w. unfold w.
  apply run_null_iff_complete, http_post_open_null_iff_complete; assumption.
Qed.

Lemma callbacks_keep_handle_null_iff_complete_witness :
  let w := exec (run default_env [ev_dns_found (Some 7); ev_connected ERR_OK; ev_recv None])
                (exec (http_post_open default_env "io.adafruit.com")
                      (initial_world default_env (Some 1) "bmp280-temp" "23.46")) in
  complete (state w) = true <-> pcb (state w) = None.
Proof.
  apply (callbacks_keep_handle_null_iff_complete default_env "io.adafruit.com"
           (initial_world default_env (Some 1) "bmp280-temp" "23.46")
           [ev_dns_found (Some 7); ev_connected ERR_OK; ev_recv None]);
    reflexivity.
Defined.

(** ** Whole uplinks *)

Lemma run_app (e : env) (evs1 evs2 : list event) :
  forall w, exec (run e (evs1 ++ evs2)) w = exec (run e evs2) (exec (run e evs1) w).
Proof.
  induction evs1 as [|ev evs1 IH]; intros w; [reflexivity|].
  rewrite <- app_comm_cons, !run_cons. apply IH.
Qed.

(** Nothing is delivered to a state without a handle. *)
Lemma run_closed (e : env) (evs : list event) :
  forall w, pcb (state w) = None -> exec (run e evs) w = w.
Proof.
  induction evs as [|ev evs IH]; intros w Hp; [reflexivity|].
  rewrite run_cons.
  assert (E : exec (dispatch e ev) w = w) by (rewrite dispatch_exec, Hp; reflexivity).
  rewrite E. apply IH, Hp.
Qed.

Lemma wait_loop_complete (e : env) (script : list step) (w : world) :
  complete (state w) = true -> wait_loop e script w = Some w.
Proof. intros Hc. destruct script; simpl; rewrite Hc; reflexivity. Qed.

(** The wait loop follows the callbacks until the state is complete. *)
Lemma wait_loop_run (e : env) (evs : list event) (rest : list step) :
  forall w,
    (complete (state w) = true -> pcb (state w) = None) ->
    wait_loop e (map callback evs ++ rest) w =
    if complete (state (exec (run e evs) w)) then Some (exec (run e evs) w)
    else wait_loop e rest (exec (run e evs) w).
Proof.
  induction evs as [|ev evs IH]; intros w Hinv.
  - simpl map. simpl app. simpl run. change (exec (ret tt) w) with w.
    destruct (complete (state w)) eqn:Hc; [apply wait_loop_complete, Hc | reflexivity].
  - destruct (complete (state w)) eqn:Hc.
    + rewrite (run_closed e (ev :: evs) w (Hinv eq_refl)), Hc.
      apply wait_loop_complete, Hc.
    + rewrite run_cons. simpl map. rewrite <- app_comm_cons. simpl wait_loop. rewrite Hc.
      apply IH. apply dispatch_handle_hygiene. intros H. congruence.
Qed.

Lemma initial_world_incomplete (e : env) (tls : option altcp_tls_config)
    (feed_key value_text : string) :
  complete (state (initial_world e tls feed_key value_text)) = false.
Proof. reflexivity. Qed.

(** An uplink that opens returns what the world holds when a callback
    completes the state. *)
Lemma send_to_adafruit_io_completed
    (e : env) (tls : option altcp_tls_config) (feed_key value_text : string)
    (evs : list event) (rest : list step) :
  uplink_opens e tls feed_key value_text ->
  complete (state (exec (run e evs) (opened_world e tls feed_key value_text))) = true ->
  send_to_adafruit_io e tls feed_key value_text (map callback evs ++ rest) =
  Some (outcome_of (exec (run e evs) (opened_world e tls feed_key value_text))).
Proof.
  intros Hopens Hc.
  rewrite (send_to_adafruit_io_opened _ _ _ _ _ Hopens).
  fold (opened_world e tls feed_key value_text).
  rewrite wait_loop_run, Hc; [reflexivity|].
  destruct Hopens as (_ & _ & Hnew & _).
  apply (http_post_open_null_iff_complete e "io.adafruit.com" _ Hnew
           (initial_world_incomplete e tls feed_key value_text)).
Qed.

Lemma opened_run_handle
    (e : env) (tls : option altcp_tls_config) (feed_key value_text : string)
    (evs : list event) :
  tls_new_ok e = true ->
  complete (state (exec (run e evs) (opened_world e tls feed_key value_text))) = false ->
  exists h, pcb (state (exec (run e evs) (opened_world e tls feed_key value_text))) = Some h.
Proof.
  intros Hnew Hc.
  pose proof (run_null_iff_complete e evs (opened_world e tls feed_key value_text)
                (http_post_open_null_iff_complete e "io.adafruit.com" _ Hnew
                   (initial_world_incomplete e tls feed_key value_text))) as [_ Hn].
  destruct (pcb (state (exec (run e evs) (opened_world e tls feed_key value_text))))
    as [h|]; [exists h; reflexivity|].
  specialize (Hn eq_refl). congruence.
Qed.

Lemma dispatch_transport_failure (e : env) (ev : event) (w : world) (h : altcp_pcb) :
  pcb (state w) = Some h ->
  transport_failure e ev = true ->
  exists l,
    exec (dispatch e ev) w =
    mk_world (tls_config w) (set_pcb None (set_complete true (state w)))
             (calls w ++ l ++ teardown e).
Proof.
  intros Hp Hf. rewrite dispatch_exec, Hp.
  destruct ev as [[ip|]|err|p|err|]; simpl in Hf; try discriminate.
  - rewrite http_post_dns_found_exec, http_post_connect_to_server_ip_exec. cbv zeta.
    apply negb_true_iff in Hf. rewrite Hf, http_post_close_exec.
    cbn [tls_config state calls]. rewrite Hp.
    exists [altcp_connect 443]. rewrite <- app_assoc. reflexivity.
  - rewrite http_post_dns_found_exec, http_post_close_exec, Hp.
    exists []. reflexivity.
  - rewrite http_post_connected_exec. cbv zeta.
    destruct (is_ERR_OK err); simpl in Hf.
    + apply negb_true_iff in Hf. rewrite Hf, http_post_close_exec.
      cbn [tls_config state calls]. rewrite Hp.
      exists [altcp_write (http_request (state w))]. rewrite <- app_assoc. reflexivity.
    + rewrite http_post_close_exec, Hp. exists []. reflexivity.
Qed.

(** X8: when the transport reports that name resolution, the connect or
    the write failed, on an uplink that is not complete and has recorded
    no error, the handle is closed and [send_to_adafruit_io] returns
    true: these failures leave the error code at 0. *)
Theorem transport_failure_reported_as_success
    (e : env) (tls : option altcp_tls_config) (feed_key value_text : string)
    (pre : list event) (ev : event) (rest : list step) :
  uplink_opens e tls feed_key value_text ->
  let w := exec (run e pre) (opened_world e tls feed_key value_text) in
  complete (state w) = false ->
  error (state w) = 0 ->
  transport_failure e ev = true ->
  exists o st l,
    send_to_adafruit_io e tls feed_key value_text
                        (map callback (pre ++ [ev]) ++ rest) = Some o /\
    returned o = true /\
    freed_state o = Some st /\ complete st = true /\ pcb st = None /\
    trace o = calls w ++ l ++ teardown e.
Proof.
  intros Hopens w Hc H0 Hf.
  destruct (opened_run_handle e tls feed_key value_text pre) as [h Hp];
    [apply Hopens | exact Hc |]. fold w in Hp.
  destruct (dispatch_transport_failure e ev w h Hp Hf) as [l Hl].
  assert (Hrun : exec (run e (pre ++ [ev])) (opened_world e tls feed_key value_text) =
                 mk_world (tls_config w) (set_pcb None (set_complete true (state w)))
                          (calls w ++ l ++ teardown e)).
  { rewrite run_app. fold w. rewrite run_cons. exact Hl. }
  rewrite (send_to_adafruit_io_completed e tls feed_key value_text _ rest Hopens)
    by (rewrite Hrun; reflexivity).
  rewrite Hrun. unfold outcome_of. cbn [state tls_config calls error set_pcb set_complete].
  rewrite H0.
  do 3 eexists. repeat split.
Qed.

Lemma transport_failure_reported_as_success_witness :
  uplink_opens default_env (Some 1) "bmp280-temp" "23.46" /\
  exists o st l,
    send_to_adafruit_io default_env (Some 1) "bmp280-temp" "23.46"
                        (map callback ([] ++ [ev_dns_found None]) ++ [deadline]) = Some o /\
    returned o = true /\
    freed_state o = Some st /\ complete st = true /\ pcb st = None /\
    trace o = calls (opened_world default_env (Some 1) "bmp280-temp" "23.46")
              ++ l ++ teardown default_env.
Proof.
  assert (Hopens : uplink_opens default_env (Some 1) "bmp280-temp" "23.46").
  { unfold uplink_opens. simpl.
    repeat split; try discriminate; try reflexivity. right. reflexivity. }
  split; [exact Hopens|].
  apply (transport_failure_reported_as_success default_env (Some 1)
           "bmp280-temp" "23.46" [] (ev_dns_found None) [deadline] Hopens);
    reflexivity.
Defined.

(** ** Error callback *)

Lemma dispatch_registered (e : env) (ev : event) (w : world) :
  (complete (state w) = false -> registered w) ->
  complete (state (exec (dispatch e ev) w)) = false ->
  registered (exec (dispatch e ev) w).
Proof.
  intros Hinv. unfold registered in *.
  dispatch_cases ev w h; try discriminate.
  all: intros Hc; specialize (Hinv Hc);
    destruct Hinv as (h' & Hh & Harg & Hrecv & Herr & Hpoll).
  all: try rewrite Hpcb in Hh.
  all: inversion Hh; subst h'.
  all: try (exists h; repeat split; assumption).
  all: try congruence.
  eexists. split; [reflexivity|]. simpl. repeat split; try assumption. discriminate.
Qed.

Lemma run_registered (e : env) (evs : list event) :
  forall w,
    (complete (state w) = false -> registered w) ->
    complete (state (exec (run e evs) w)) = false ->
    registered (exec (run e evs) w).
Proof.
  induction evs as [|ev evs IH]; intros w Hinv; [exact Hinv|].
  rewrite run_cons. apply IH, dispatch_registered, Hinv.
Qed.

Lemma http_post_open_registered (e : env) (hostname : string) (w : world) :
  tls_new_ok e = true ->
  complete (state (exec (http_post_open e hostname) w)) = false ->
  registered (exec (http_post_open e hostname) w).
Proof.
  intros Hnew. unfold exec, registered. rewrite http_post_open_exec, Hnew.
  cbv zeta. cbn [snd].
  exec_callbacks. split_branches; exec_callbacks; simpl; try discriminate;
    intros _; eexists; (split; [reflexivity|]); simpl; repeat split; discriminate.
Qed.

(** X9: when the transport reports an error through the error callback
    on an uplink that is not complete, the handle is closed, the error
    code is PICO_ERROR_GENERIC whatever was recorded before, and
    [send_to_adafruit_io] returns false. *)
Theorem error_callback_fails_uplink
    (e : env) (tls : option altcp_tls_config) (feed_key value_text : string)
    (pre : list event) (err : err_t) (rest : list step) :
  uplink_opens e tls feed_key value_text ->
  PICO_ERROR_GENERIC e <> 0 ->
  let w := exec (run e pre) (opened_world e tls feed_key value_text) in
  complete (state w) = false ->
  exists o st,
    send_to_adafruit_io e tls feed_key value_text
                        (map callback (pre ++ [ev_err err]) ++ rest) = Some o /\
    returned o = false /\
    freed_state o = Some st /\ complete st = true /\ pcb st = None /\
    error st = PICO_ERROR_GENERIC e /\
    trace o = calls w ++ teardown e.
Proof.
  intros Hopens Hg w Hc.
  assert (Hreg : registered w).
  { unfold w, opened_world. apply run_registered; [|exact Hc].
    apply http_post_open_registered, Hopens. }
  destruct Hreg as (h & Hp & _ & _ & Herr & _).
  assert (Hrun : exec (run e (pre ++ [ev_err err])) (opened_world e tls feed_key value_text) =
                 mk_world (tls_config w)
                          (set_error (PICO_ERROR_GENERIC e)
                             (set_pcb None (set_complete true (state w))))
                          (calls w ++ teardown e)).
  { rewrite run_app. fold w. rewrite run_cons.
    change (exec (run e []) ?x) with x.
    rewrite dispatch_exec, Hp, Herr, http_post_err_exec, Hp. reflexivity. }
  rewrite (send_to_adafruit_io_completed e tls feed_key value_text _ rest Hopens)
    by (rewrite Hrun; reflexivity).
  rewrite Hrun. unfold outcome_of.
  cbn [state tls_config calls error set_pcb set_complete set_error].
  do 2 eexists. split; [reflexivity|]. cbn [returned freed_state trace].
  split; [apply Z.eqb_neq, Hg|]. repeat split.
Qed.

Lemma error_callback_fails_uplink_witness :
  uplink_opens default_env (Some 1) "bmp280-temp" "23.46" /\
  PICO_ERROR_GENERIC default_env <> 0 /\
  exists o st,
    send_to_adafruit_io default_env (Some 1) "bmp280-temp" "23.46"
      (map callback ([ev_dns_found (Some 7)] ++ [ev_err ERR_RST]) ++ []) = Some o /\
    returned o = false /\
    freed_state o = Some st /\ complete st = true /\ pcb st = None /\
    error st = -1 /\
    trace o = calls (exec (run default_env [ev_dns_found (Some 7)])
                          (opened_world default_env (Some 1) "bmp280-temp" "23.46"))
              ++ teardown default_env.
Proof.
  assert (Hopens : uplink_opens default_env (Some 1) "bmp280-temp" "23.46").
  { unfold uplink_opens. simpl.
    repeat split; try discriminate; try reflexivity. right. reflexivity. }
  assert (Hg : PICO_ERROR_GENERIC default_env <> 0) by (simpl; discriminate).
  split; [exact Hopens|]. split; [exact Hg|].
  apply (error_callback_fails_uplink default_env (Some 1) "bmp280-temp" "23.46"
           [ev_dns_found (Some 7)] ERR_RST [] Hopens Hg).
  reflexivity.
Defined.

(** ** Unexpected status *)

(** Callbacks that assign no error code, timer shots short of the poll
    interval among them, leave an error code of 0 at 0. *)
Lemma run_no_error (e : env) (interval : Z) (evs : list event) :
  forall (w : world) (c : Z),
    error (state w) = 0 ->
    (complete (state w) = true -> pcb (state w) = None) ->
    (complete (state w) = false -> counted interval c w) ->
    forallb no_error_callback evs = true ->
    c + Z.of_nat (timer_shots evs) < interval ->
    error (state (exec (run e evs) w)) = 0.
Proof.
  induction evs as [|ev evs IH]; intros w c H0 Hnull Hcount Hq Hlt; [exact H0|].
  simpl in Hq. apply andb_prop in Hq. destruct Hq as [Hev Hq].
  rewrite timer_shots_cons in Hlt.
  pose proof (Nat2Z.is_nonneg (timer_shots evs)) as Hpos.
  rewrite run_cons.
  apply (IH _ (c + (if is_timer_shot ev then 1 else 0))).
  - destruct (is_timer_shot ev) eqn:Hshot.
    + destruct ev; try discriminate.
      destruct (complete (state w)) eqn:Hc.
      * rewrite dispatch_exec, (Hnull eq_refl). exact H0.
      * destruct (Hcount eq_refl) as (h & Hp & Hpoll & Hpt).
        rewrite (tick_counts e interval w h Hp Hpoll) by lia. exact H0.
    + apply dispatch_no_error; [|exact H0].
      unfold no_error_callback in Hev. rewrite Hshot in Hev. exact Hev.
  - apply dispatch_handle_hygiene, Hnull.
  - intros Hc1.
    destruct (complete (state w)) eqn:Hc.
    + rewrite (dispatch_complete_mono e ev w Hc) in Hc1. discriminate.
    + apply (dispatch_counted e ev interval c w (Hcount eq_refl) Hc1).
  - exact Hq.
  - lia.
Qed.

(** The end of the stream completes a state that is not complete yet. *)
Lemma run_end_of_stream (e : env) (evs : list event) :
  forall w,
    (complete (state w) = false -> registered w) ->
    In (ev_recv None) evs ->
    complete (state (exec (run e evs) w)) = true.
Proof.
  induction evs as [|ev evs IH]; intros w Hreg Hin; [destruct Hin|].
  rewrite run_cons. destruct Hin as [-> | Hin].
  - apply run_complete_mono.
    destruct (complete (state w)) eqn:Hc; [apply dispatch_complete_mono, Hc|].
    destruct (Hreg eq_refl) as (h & Hp & _ & Hrecv & _).
    rewrite dispatch_exec, Hp, Hrecv, http_post_recv_eof_exec. reflexivity.
  - apply IH; [|exact Hin]. apply dispatch_registered, Hreg.
Qed.

Lemma opened_world_no_error
    (e : env) (tls : option altcp_tls_config) (feed_key value_text : string)
    (evs : list event) :
  uplink_opens e tls feed_key value_text ->
  forallb no_error_callback evs = true ->
  (timer_shots evs < 30)%nat ->
  error (state (exec (run e evs) (opened_world e tls feed_key value_text))) = 0.
Proof.
  intros (_ & _ & Hnew & Hdns & _) Hq Hshots.
  apply (run_no_error e 30 evs _ 0).
  - unfold opened_world. rewrite http_post_open_error. reflexivity.
  - apply (http_post_open_null_iff_complete e "io.adafruit.com" _ Hnew
             (initial_world_incomplete e tls feed_key value_text)).
  - apply (http_post_open_counted e "io.adafruit.com"
             (initial_world e tls feed_key value_text)).
    rewrite http_post_open_eval, Hnew. destruct Hdns as [-> | ->]; reflexivity.
  - exact Hq.
  - lia.
Qed.

(** C10: a response whose status line matches none of the literals of the
    status check leaves the state, and so its error code, as it was.  And
    an uplink that got as far as the wait loop, and whose callbacks assign
    no error code (such responses and timer shots short of the poll
    interval included), returns true with an error code of 0 once a
    callback completes the state; the end of the stream is such a
    callback. *)
Theorem unexpected_status_reported_as_success (e : env) :
  (forall (p : pbuf) (w : world),
      classify_status (response_prefix p) = UnexpectedStatus ->
      state (exec (http_post_recv e (Some p)) w) = state w) /\
  (forall (tls : option altcp_tls_config) (feed_key value_text : string)
          (evs : list event) (rest : list step),
      uplink_opens e tls feed_key value_text ->
      forallb no_error_callback evs = true ->
      (timer_shots evs < 30)%nat ->
      In (ev_recv None) evs \/
      complete (state (exec (run e evs) (opened_world e tls feed_key value_text))) = true ->
      exists o st,
        send_to_adafruit_io e tls feed_key value_text (map callback evs ++ rest) = Some o /\
        returned o = true /\
        freed_state o = Some st /\
        complete st = true /\ pcb st = None /\ error st = 0).
Proof.
  split.
  - intros p w Hu. rewrite http_post_recv_data_exec.
    destruct (tot_len p >? 0); [|reflexivity].
    rewrite classify_response_prefix in Hu. rewrite Hu. simpl.
    apply set_error_same.
  - intros tls feed_key value_text evs rest Hopens Hq Hshots Hend.
    pose proof (opened_world_no_error e tls feed_key value_text evs Hopens Hq Hshots) as H0.
    assert (Hnew : tls_new_ok e = true) by apply Hopens.
    assert (Hc : complete (state (exec (run e evs)
                                       (opened_world e tls feed_key value_text))) = true).
    { destruct Hend as [Hin | Hc]; [|exact Hc].
      apply run_end_of_stream; [|exact Hin].
      apply (http_post_open_registered e "io.adafruit.com" _ Hnew). }
    pose proof (proj1 (run_null_iff_complete e evs (opened_world e tls feed_key value_text)
                         (http_post_open_null_iff_complete e "io.adafruit.com" _ Hnew
                            (initial_world_incomplete e tls feed_key value_text))) Hc) as Hp.
    rewrite (send_to_adafruit_io_completed e tls feed_key value_text evs rest Hopens Hc).
    set (w := exec (run e evs) (opened_world e tls feed_key value_text)) in *.
    clearbody w.
    unfold outcome_of. rewrite H0.
    do 2 eexists. split; [reflexivity|]. cbn [returned freed_state].
    repeat split; assumption.
Qed.

Lemma unexpected_status_reported_as_success_witness :
  uplink_opens default_env (Some 1) "bmp280-temp" "23.46" /\
  forallb no_error_callback unexpected_status_events = true /\
  (timer_shots unexpected_status_events < 30)%nat /\
  In (ev_recv None) unexpected_status_events /\
  exists o st,
    send_to_adafruit_io default_env (Some 1) "bmp280-temp" "23.46"
                        (map callback unexpected_status_events ++ [deadline]) = Some o /\
    returned o = true /\
    freed_state o = Some st /\
    complete st = true /\ pcb st = None /\ error st = 0.
Proof.
  assert (Hopens : uplink_opens default_env (Some 1) "bmp280-temp" "23.46").
  { unfold uplink_opens. simpl.
    repeat split; try discriminate; try reflexivity. right. reflexivity. }
  assert (Hq : forallb no_error_callback unexpected_status_events = true)
    by reflexivity.
  assert (Hshots : (timer_shots unexpected_status_events < 30)%nat)
    by (vm_compute; lia).
  assert (Hin : In (ev_recv None) unexpected_status_events)
    by (simpl; tauto).
  split; [exact Hopens|]. split; [exact Hq|]. split; [exact Hshots|].
  split; [exact Hin|].
  apply (proj2 (unexpected_status_reported_as_success default_env)
               (Some 1) "bmp280-temp"%string "23.46"%string
               unexpected_status_events [deadline] Hopens Hq Hshots (or_introl Hin)).
Defined.

(** ** The calls of an uplink *)

Ltac delta_with l H :=
  exists l; unfold tail_of; simpl; rewrite ?H;
  rewrite ?app_nil_r, <- ?app_assoc; simpl; rewrite ?String.eqb_refl;
  repeat split; reflexivity.

(** What one callback adds to the calls of an open handle. *)
Lemma dispatch_delta (e : env) (ev : event) (w : world) :
  pcb (state w) <> None ->
  exists l,
    calls (exec (dispatch e ev) w) =
    calls w ++ l ++ tail_of e (state (exec (dispatch e ev) w)) /\
    forallb (is_transfer_call (http_request (state w))) l = true /\
    tls_config (exec (dispatch e ev) w) = tls_config w /\
    http_request (state (exec (dispatch e ev) w)) = http_request (state w).
Proof.
  intros Hsome.
  dispatch_cases ev w h; [..|congruence];
    first [ congruence
          | solve [delta_with (@nil io_call) Hpcb]
          | solve [delta_with [altcp_connect 443] Hpcb]
          | solve [delta_with [altcp_write (http_request (state w))] Hpcb]
          | solve [delta_with [pbuf_free] Hpcb]
          | solve [delta_with [altcp_recved (tot_len p); pbuf_free] Hpcb] ].
Qed.

Lemma substring_0_ge (s : string) :
  forall n : nat, (String.length s <= n)%nat -> substring 0 n s = s.
Proof.
  induction s as [|c s IH]; intros n Hn.
  - destruct n; reflexivity.
  - destruct n as [|n]; [simpl in Hn; lia|].
    simpl. rewrite IH by (simpl in Hn; lia). reflexivity.
Qed.

Lemma dispatch_shape (e : env) (conf : option altcp_tls_config) (base : list io_call)
    (request : string) (ev : event) (w : world) :
  uplink_shape e conf base request w ->
  uplink_shape e conf base request (exec (dispatch e ev) w).
Proof.
  intros (Ht & Hr & body & Hcalls & Hbody).
  destruct (pcb (state w)) as [h|] eqn:Hp.
  - destruct (dispatch_delta e ev w) as (l & Hl & Hfl & Ht' & Hr'); [congruence|].
    split; [congruence|]. split; [congruence|].
    exists (body ++ l). split.
    + rewrite Hl, Hcalls. unfold tail_of at 1. rewrite Hp, app_nil_r.
      rewrite <- !app_assoc. reflexivity.
    + rewrite forallb_app, Hbody. rewrite Hr in Hfl. rewrite Hfl. reflexivity.
  - assert (E : exec (dispatch e ev) w = w) by (rewrite dispatch_exec, Hp; reflexivity).
    rewrite E. split; [exact Ht|]. split; [exact Hr|]. exists body. split; assumption.
Qed.

Lemma wait_loop_shape (e : env) (conf : option altcp_tls_config) (base : list io_call)
    (request : string) (script : list step) :
  forall w w',
    wait_loop e script w = Some w' ->
    uplink_shape e conf base request w ->
    uplink_shape e conf base request w'.
Proof.
  induction script as [|s script IH]; intros w w' H Hs; simpl in H.
  - destruct (complete (state w)); [|discriminate]. injection H as <-. exact Hs.
  - destruct (complete (state w)); [injection H as <-; exact Hs|].
    destruct s as [ev|].
    + apply (IH _ _ H), dispatch_shape, Hs.
    + injection H as <-. exact Hs.
Qed.

Lemma http_post_open_shape (e : env) (hostname : string) (w0 : world) :
  tls_new_ok e = true ->
  timeout (state w0) = 15 ->
  uplink_shape e (tls_config w0) (calls w0 ++ registration (tls_config w0) hostname)
               (http_request (state w0)) (exec (http_post_open e hostname) w0).
Proof.
  intros Hnew Ht. unfold exec, uplink_shape. rewrite http_post_open_exec, Hnew, Ht.
  cbv zeta. cbn [snd]. change (uint8 (15 * 2)) with 30.
  destruct (is_ERR_OK (dns_res e)).
  - rewrite http_post_connect_to_server_ip_exec. cbv zeta.
    destruct (is_ERR_OK (connect_res e) || is_ERR_INPROGRESS (connect_res e)).
    + repeat split. exists [altcp_connect 443]. unfold tail_of, registration. simpl.
      rewrite <- !app_assoc. split; reflexivity.
    + rewrite http_post_close_exec. repeat split.
      exists [altcp_connect 443]. unfold tail_of, registration. simpl.
      rewrite <- !app_assoc. split; reflexivity.
  - destruct (is_ERR_INPROGRESS (dns_res e)).
    + repeat split. exists []. unfold tail_of, registration. simpl.
      rewrite app_nil_r. split; reflexivity.
    + rewrite http_post_close_exec. repeat split.
      exists []. unfold tail_of, registration. simpl.
      rewrite <- !app_assoc. split; reflexivity.
Qed.

(** The shape of the world an uplink ends in, when the handle was
    created. *)
Lemma send_to_adafruit_io_shape
    (e : env) (tls : option altcp_tls_config) (feed_key value_text : string)
    (script : list step) (o : outcome) :
  send_to_adafruit_io e tls feed_key value_text script = Some o ->
  trace o = config_calls tls /\ tls_config_after o = config_in_use e tls /\
  (freed_state o = None \/
   freed_state o = Some (set_http_request
                           (fst (snprintf 512 (composed_message e feed_key value_text)))
                           zeroed_state) /\
   512 <= strlen (composed_message e feed_key value_text)) \/
  trace o = config_calls tls ++ [altcp_tls_new (config_in_use e tls)] /\
  tls_config_after o = config_in_use e tls /\ tls_new_ok e = false \/
  strlen (composed_message e feed_key value_text) < 512 /\
  exists w,
    o = mk_outcome (returned o) (tls_config w) (Some (state w)) (calls w) /\
    uplink_shape e (config_in_use e tls)
                 (config_calls tls ++ registration (config_in_use e tls) "io.adafruit.com")
                 (composed_message e feed_key value_text) w.
Proof.
  rewrite send_to_adafruit_io_checked.
  destruct (config_in_use e tls) as [c|] eqn:Hc.
  2: { intros H. injection H as <-. left. simpl. auto. }
  destruct (calloc_ok e); cbn [negb].
  2: { intros H. injection H as <-. left. simpl. auto. }
  cbv zeta.
  destruct (Z_lt_le_dec (strlen (composed_message e feed_key value_text)) 512) as [Hfit|Hbig].
  2: { rewrite (request_too_long_oversize _ Hbig).
       intros H. injection H as <-. left. simpl. auto. }
  rewrite (request_too_long_fits _ Hfit).
  rewrite http_post_open_eval.
  destruct (tls_new_ok e) eqn:Hnew.
  - pose proof (http_post_open_shape e "io.adafruit.com"
                  (initial_world e tls feed_key value_text) Hnew eq_refl) as Hs.
    cbn [initial_world tls_config state calls http_request set_timeout set_http_request] in Hs.
    rewrite Hc in Hs.
    assert (Hreq : fst (snprintf 512 (composed_message e feed_key value_text)) =
                   composed_message e feed_key value_text).
    { unfold snprintf. cbn [fst]. apply substring_0_ge.
      unfold strlen in Hfit. lia. }
    rewrite Hreq in Hs.
    set (w := exec (http_post_open e "io.adafruit.com")
                   (initial_world e tls feed_key value_text)) in *.
    clearbody w. cbn [andb].
    destruct (is_ERR_OK (dns_res e) || is_ERR_INPROGRESS (dns_res e)); cbn [negb].
    + destruct (wait_loop e script w) as [w'|] eqn:Hw; [|discriminate].
      intros H. injection H as <-. right. right. split; [exact Hfit|].
      exists w'. split; [reflexivity|].
      apply (wait_loop_shape _ _ _ _ _ _ _ Hw Hs).
    + intros H. injection H as <-. right. right. split; [exact Hfit|].
      exists w. split; [reflexivity | exact Hs].
  - cbn [andb negb]. intros H. injection H as <-. right. left.
    unfold exec. rewrite http_post_open_exec, Hnew. cbn [snd tls_config calls].
    unfold initial_world. cbn [tls_config calls trace tls_config_after]. rewrite Hc. auto.
Qed.

(** X10: the calls of an uplink come in one order, whatever the
    environment answers and whatever callbacks arrive: the creation of
    the TLS configuration if the global was NULL; then nothing more, or
    the failed creation of a handle, or the creation and registration of
    the handle and the start of name resolution, followed only by the
    connect to port 443, writes of the composed request and
    acknowledgements and releases of received data, and closed by the
    teardown exactly when the freed state has no handle. *)
Theorem uplink_calls_in_order
    (e : env) (tls : option altcp_tls_config) (feed_key value_text : string)
    (script : list step) (o : outcome) :
  send_to_adafruit_io e tls feed_key value_text script = Some o ->
  trace o = config_calls tls \/
  trace o = config_calls tls ++ [altcp_tls_new (config_in_use e tls)] \/
  exists st body,
    freed_state o = Some st /\
    trace o = config_calls tls
              ++ registration (config_in_use e tls) "io.adafruit.com"
              ++ body ++ tail_of e st /\
    forallb (is_transfer_call (composed_message e feed_key value_text)) body = true.
Proof.
  intros H.
  destruct (send_to_adafruit_io_shape _ _ _ _ _ _ H)
    as [(Ht & _) | [(Ht & _) | (_ & w & Ho & _ & _ & body & Hcalls & Hbody)]].
  - left. exact Ht.
  - right. left. exact Ht.
  - right. right. exists (state w), body. rewrite Ho. cbn [freed_state trace].
    split; [reflexivity|]. split; [|exact Hbody].
    rewrite Hcalls, <- app_assoc. reflexivity.
Qed.

Lemma uplink_calls_in_order_witness :
  exists o,
    send_to_adafruit_io default_env None "bmp280-temp" "23.46" unexpected_status_script
    = Some o /\
    (trace o = config_calls None \/
     trace o = config_calls None ++ [altcp_tls_new (config_in_use default_env None)] \/
     exists st body,
       freed_state o = Some st /\
       trace o = config_calls None
                 ++ registration (config_in_use default_env None) "io.adafruit.com"
                 ++ body ++ tail_of default_env st /\
       forallb (is_transfer_call (composed_message default_env "bmp280-temp" "23.46"))
               body = true).
Proof.
  destruct (send_to_adafruit_io default_env None "bmp280-temp" "23.46"
                                unexpected_status_script) as [o|] eqn:Ho.
  - exists o. split; [reflexivity|].
    apply (uplink_calls_in_order default_env None "bmp280-temp" "23.46"
             unexpected_status_script o Ho).
  - vm_compute in Ho. discriminate.
Defined.

Lemma transfer_calls_keep_open (request : string) (body : list io_call) :
  forallb (is_transfer_call request) body = true ->
  ~ In altcp_close body /\ ~ In altcp_abort body /\
  ~ In altcp_tls_create_config_client body /\
  (forall conf, ~ In (altcp_tls_new conf) body) /\
  (forall data, In (altcp_write data) body -> data = request).
Proof.
  intros H. rewrite forallb_forall in H.
  repeat split.
  - intros Hin. apply H in Hin. discriminate.
  - intros Hin. apply H in Hin. discriminate.
  - intros Hin. apply H in Hin. discriminate.
  - intros conf Hin. apply H in Hin. discriminate.
  - intros data Hin. apply H in Hin. simpl in Hin. apply String.eqb_eq, Hin.
Qed.

(** The place of an element that occurs once is unique. *)
Lemma split_once {A : Type} (x : A) (l1 : list A) :
  forall l2 l1' l2',
    ~ In x l1 -> ~ In x l2 ->
    l1 ++ x :: l2 = l1' ++ x :: l2' -> l1' = l1 /\ l2' = l2.
Proof.
  induction l1 as [|a l1 IH]; intros l2 l1' l2' H1 H2 E.
  - destruct l1' as [|b l1']; simpl in E.
    + injection E as <-. split; reflexivity.
    + injection E as <- ->. exfalso. apply H2. apply in_or_app. right. left. reflexivity.
  - destruct l1' as [|b l1']; simpl in E.
    + injection E as -> _. exfalso. apply H1. left. reflexivity.
    + injection E as <- E.
      destruct (IH l2 l1' l2') as [-> ->]; [| |exact E|split; reflexivity].
      * intros Hin. apply H1. right. exact Hin.
      * exact H2.
Qed.

Lemma config_calls_keep_open (tls : option altcp_tls_config) :
  ~ In altcp_close (config_calls tls) /\
  (forall data, ~ In (altcp_write data) (config_calls tls)) /\
  (forall conf, ~ In (altcp_tls_new conf) (config_calls tls)).
Proof.
  destruct tls; simpl; repeat split; try intros ?; intuition discriminate.
Qed.

Lemma registration_keeps_open (conf : option altcp_tls_config) (hostname : string) :
  ~ In altcp_close (registration conf hostname) /\
  ~ In altcp_tls_create_config_client (registration conf hostname) /\
  (forall data, ~ In (altcp_write data) (registration conf hostname)) /\
  (forall conf', In (altcp_tls_new conf') (registration conf hostname) -> conf' = conf).
Proof.
  unfold registration. simpl. repeat split; try intros ?; try intuition discriminate.
  intros [H|H]; [congruence | intuition discriminate].
Qed.

(** X11: [altcp_close] is called at most once in an uplink and is the
    last thing done to the handle: before it there is no other
    [altcp_close], after it nothing but the [altcp_abort] of a failed
    close, and the freed state has no handle. *)
Theorem close_is_called_once_and_last
    (e : env) (tls : option altcp_tls_config) (feed_key value_text : string)
    (script : list step) (o : outcome) (pre post : list io_call) :
  send_to_adafruit_io e tls feed_key value_text script = Some o ->
  trace o = pre ++ altcp_close :: post ->
  ~ In altcp_close pre /\
  (post = [] \/ post = [altcp_abort]) /\
  exists st, freed_state o = Some st /\ pcb st = None.
Proof.
  intros H Hsplit.
  assert (Hin : In altcp_close (trace o)).
  { rewrite Hsplit. apply in_or_app. right. left. reflexivity. }
  destruct (config_calls_keep_open tls) as (Hcc & _ & _).
  destruct (send_to_adafruit_io_shape _ _ _ _ _ _ H)
    as [(Ht & _) | [(Ht & _) | (_ & w & Ho & _ & _ & body & Hcalls & Hbody)]].
  - rewrite Ht in Hin. contradiction.
  - rewrite Ht in Hin. apply in_app_or in Hin. destruct Hin as [Hin|Hin];
      [contradiction | simpl in Hin; intuition discriminate].
  - destruct (registration_keeps_open (config_in_use e tls) "io.adafruit.com")
      as (Hrc & _ & _ & _).
    destruct (transfer_calls_keep_open _ _ Hbody) as (Hbc & _ & _ & _ & _).
    rewrite Ho in Hin, Hsplit |- *. cbn [trace freed_state] in *.
    rewrite Hcalls in Hin, Hsplit. unfold tail_of in Hin, Hsplit.
    destruct (pcb (state w)) as [h|] eqn:Hp.
    + exfalso. rewrite app_nil_r in Hin.
      apply in_app_or in Hin. destruct Hin as [Hin|Hin]; [|contradiction].
      apply in_app_or in Hin. destruct Hin; contradiction.
    + clear Hin. unfold teardown in Hsplit.
      set (before := (config_calls tls ++ registration (config_in_use e tls) "io.adafruit.com")
                     ++ body ++ [altcp_arg false; altcp_poll None; altcp_recv false;
                                 altcp_err false]) in *.
      set (after := if is_ERR_OK (close_res e) then [] else [altcp_abort]) in *.
      assert (E : before ++ altcp_close :: after = pre ++ altcp_close :: post).
      { rewrite <- Hsplit. unfold before. rewrite <- !app_assoc. reflexivity. }
      destruct (split_once altcp_close before after pre post) as [-> ->]; [| |exact E|].
      * unfold before. intros Hin. apply in_app_or in Hin. destruct Hin as [Hin|Hin].
        -- apply in_app_or in Hin. destruct Hin; contradiction.
        -- apply in_app_or in Hin. destruct Hin as [Hin|Hin]; [contradiction|].
           simpl in Hin. intuition discriminate.
      * unfold after. destruct (is_ERR_OK (close_res e)); simpl; intuition discriminate.
      * split; [|split].
        -- unfold before. intros Hin. apply in_app_or in Hin. destruct Hin as [Hin|Hin].
           ++ apply in_app_or in Hin. destruct Hin; contradiction.
           ++ apply in_app_or in Hin. destruct Hin as [Hin|Hin]; [contradiction|].
              simpl in Hin. intuition discriminate.
        -- unfold after. destruct (is_ERR_OK (close_res e)); auto.
        -- exists (state w). split; [reflexivity | exact Hp].
Qed.

Lemma close_is_called_once_and_last_witness :
  exists o pre,
    send_to_adafruit_io default_env (Some 1) "bmp280-temp" "23.46" unexpected_status_script
    = Some o /\
    trace o = pre ++ altcp_close :: [] /\
    ~ In altcp_close pre /\
    ([] = @nil io_call \/ [] = [altcp_abort]) /\
    exists st, freed_state o = Some st /\ pcb st = None.
Proof.
  destruct (send_to_adafruit_io default_env (Some 1) "bmp280-temp" "23.46"
                                unexpected_status_script) as [o|] eqn:Ho.
  - assert (Ht : trace o = removelast (trace o) ++ altcp_close :: []).
    { vm_compute in Ho. injection Ho as <-. reflexivity. }
    exists o, (removelast (trace o)). split; [reflexivity|]. split; [exact Ht|].
    apply (close_is_called_once_and_last default_env (Some 1) "bmp280-temp" "23.46"
             unexpected_status_script o (removelast (trace o)) [] Ho Ht).
  - vm_compute in Ho. discriminate.
Defined.

(** X12: whatever [send_to_adafruit_io] writes to the connection is the
    whole composed request, shorter than 512 characters: a truncated
    request is never written. *)
Theorem written_request_is_complete
    (e : env) (tls : option altcp_tls_config) (feed_key value_text : string)
    (script : list step) (o : outcome) (data : string) :
  send_to_adafruit_io e tls feed_key value_text script = Some o ->
  In (altcp_write data) (trace o) ->
  data = composed_message e feed_key value_text /\ strlen data < 512.
Proof.
  intros H Hin.
  destruct (config_calls_keep_open tls) as (_ & Hcw & _).
  destruct (send_to_adafruit_io_shape _ _ _ _ _ _ H)
    as [(Ht & _) | [(Ht & _) | (Hfit & w & Ho & _ & _ & body & Hcalls & Hbody)]].
  - rewrite Ht in Hin. exfalso. exact (Hcw data Hin).
  - rewrite Ht in Hin. apply in_app_or in Hin. destruct Hin as [Hin|Hin];
      [exfalso; exact (Hcw data Hin) | simpl in Hin; intuition discriminate].
  - destruct (registration_keeps_open (config_in_use e tls) "io.adafruit.com")
      as (_ & _ & Hrw & _).
    destruct (transfer_calls_keep_open _ _ Hbody) as (_ & _ & _ & _ & Hbw).
    rewrite Ho in Hin. cbn [trace] in Hin. rewrite Hcalls in Hin.
    apply in_app_or in Hin. destruct Hin as [Hin|Hin].
    + apply in_app_or in Hin. destruct Hin as [Hin|Hin];
        [exfalso; exact (Hcw data Hin) | exfalso; exact (Hrw data Hin)].
    + apply in_app_or in Hin. destruct Hin as [Hin|Hin].
      * rewrite (Hbw data Hin). split; [reflexivity | exact Hfit].
      * exfalso. unfold tail_of, teardown in Hin.
        destruct (pcb (state w)); [destruct Hin|].
        destruct (is_ERR_OK (close_res e)); simpl in Hin; intuition discriminate.
Qed.

Lemma written_request_is_complete_witness :
  exists o,
    send_to_adafruit_io default_env (Some 1) "bmp280-temp" "23.46" unexpected_status_script
    = Some o /\
    In (altcp_write (composed_message default_env "bmp280-temp" "23.46")) (trace o) /\
    strlen (composed_message default_env "bmp280-temp" "23.46") < 512.
Proof.
  destruct (send_to_adafruit_io default_env (Some 1) "bmp280-temp" "23.46"
                                unexpected_status_script) as [o|] eqn:Ho.
  - assert (Hin : In (altcp_write (composed_message default_env "bmp280-temp" "23.46"))
                     (trace o)).
    { vm_compute in Ho. injection Ho as <-. vm_compute. do 8 right. left. reflexivity. }
    exists o. split; [reflexivity|]. split; [exact Hin|].
    apply (written_request_is_complete default_env (Some 1) "bmp280-temp" "23.46"
             unexpected_status_script o _ Ho Hin).
  - vm_compute in Ho. discriminate.
Defined.

(** ** The TLS configuration across uplinks *)

Lemma send_to_adafruit_io_allocated
    (e : env) (tls : option altcp_tls_config) (feed_key value_text : string)
    (script : list step) (o : outcome) :
  send_to_adafruit_io e tls feed_key value_text script = Some o ->
  freed_state o <> None ->
  exists c, config_in_use e tls = Some c.
Proof.
  rewrite send_to_adafruit_io_checked.
  destruct (config_in_use e tls) as [c|]; [intros _ _; exists c; reflexivity|].
  intros H. injection H as <-. simpl. congruence.
Qed.

Lemma send_to_adafruit_io_config_after
    (e : env) (tls : option altcp_tls_config) (feed_key value_text : string)
    (script : list step) (o : outcome) :
  send_to_adafruit_io e tls feed_key value_text script = Some o ->
  tls_config_after o = config_in_use e tls.
Proof.
  intros H.
  destruct (send_to_adafruit_io_shape _ _ _ _ _ _ H)
    as [(_ & Ht & _) | [(_ & Ht & _) | (_ & w & Ho & Ht & _)]]; try exact Ht.
  rewrite Ho. exact Ht.
Qed.

(** X13: the configuration made by one uplink serves the next: when an
    uplink got as far as allocating its state, the global TLS
    configuration it leaves is set, and the uplink that follows creates
    no configuration, creates its handle from that one only, and leaves
    the global as it found it. *)
Theorem tls_config_reused_by_next_uplink
    (e1 e2 : env) (tls : option altcp_tls_config)
    (feed1 value1 feed2 value2 : string) (script1 script2 : list step)
    (o1 o2 : outcome) :
  send_to_adafruit_io e1 tls feed1 value1 script1 = Some o1 ->
  freed_state o1 <> None ->
  send_to_adafruit_io e2 (tls_config_after o1) feed2 value2 script2 = Some o2 ->
  exists c,
    tls_config_after o1 = Some c /\
    tls_config_after o2 = Some c /\
    ~ In altcp_tls_create_config_client (trace o2) /\
    (forall conf, In (altcp_tls_new conf) (trace o2) -> conf = Some c).
Proof.
  intros H1 Hf H2.
  destruct (send_to_adafruit_io_allocated _ _ _ _ _ _ H1 Hf) as [c Hc].
  rewrite (send_to_adafruit_io_config_after _ _ _ _ _ _ H1), Hc in H2 |- *.
  exists c. split; [reflexivity|].
  split; [rewrite (send_to_adafruit_io_config_after _ _ _ _ _ _ H2); reflexivity|].
  destruct (send_to_adafruit_io_shape _ _ _ _ _ _ H2)
    as [(Ht & _) | [(Ht & _) | (_ & w & Ho & _ & _ & body & Hcalls & Hbody)]].
  - rewrite Ht. simpl. split; [tauto | intros conf []].
  - rewrite Ht. simpl. split; [intuition discriminate|].
    intros conf [Hin|[]]. congruence.
  - destruct (registration_keeps_open (Some c) "io.adafruit.com") as (_ & Hrc & _ & Hrn).
    destruct (transfer_calls_keep_open _ _ Hbody) as (_ & _ & Hbc & Hbn & _).
    assert (Htail : ~ In altcp_tls_create_config_client (tail_of e2 (state w)) /\
                    forall conf, ~ In (altcp_tls_new conf) (tail_of e2 (state w))).
    { unfold tail_of, teardown. destruct (pcb (state w)); [simpl; tauto|].
      destruct (is_ERR_OK (close_res e2)); simpl; split; try intros ?; intuition discriminate. }
    destruct Htail as [Htc Htn].
    rewrite Ho. cbn [trace]. rewrite Hcalls. cbn [config_calls config_in_use app].
    split.
    + intros Hin. apply in_app_or in Hin. destruct Hin as [Hin|Hin]; [contradiction|].
      apply in_app_or in Hin. destruct Hin; contradiction.
    + intros conf Hin. apply in_app_or in Hin. destruct Hin as [Hin|Hin]; [apply Hrn, Hin|].
      apply in_app_or in Hin. destruct Hin as [Hin|Hin]; [destruct (Hbn conf Hin)|].
      destruct (Htn conf Hin).
Qed.

Lemma tls_config_reused_by_next_uplink_witness :
  exists o1 o2 c,
    send_to_adafruit_io default_env None "bmp280-temp" "23.46" [deadline] = Some o1 /\
    freed_state o1 <> None /\
    send_to_adafruit_io default_env (tls_config_after o1) "bmp280-pressure" "101.325"
                        unexpected_status_script = Some o2 /\
    tls_config_after o1 = Some c /\
    tls_config_after o2 = Some c /\
    ~ In altcp_tls_create_config_client (trace o2) /\
    (forall conf, In (altcp_tls_new conf) (trace o2) -> conf = Some c).
Proof.
  destruct (send_to_adafruit_io default_env None "bmp280-temp" "23.46" [deadline])
    as [o1|] eqn:H1; [|vm_compute in H1; discriminate].
  assert (Hf : freed_state o1 <> None).
  { vm_compute in H1. injection H1 as <-. discriminate. }
  destruct (send_to_adafruit_io default_env (tls_config_after o1) "bmp280-pressure"
                                "101.325" unexpected_status_script)
    as [o2|] eqn:H2.
  - destruct (tls_config_reused_by_next_uplink default_env default_env None
                "bmp280-temp" "23.46" "bmp280-pressure" "101.325"
                [deadline] unexpected_status_script o1 o2 H1 Hf H2) as [c Hc].
    exists o1, o2, c. split; [reflexivity|]. split; [exact Hf|].
    split; [exact H2 | exact Hc].
  - exfalso. vm_compute in H1. injection H1 as <-. vm_compute in H2. discriminate.
Defined.

(** ** Timeout and failures to open *)

Lemma opened_world_armed
    (e : env) (tls : option altcp_tls_config) (feed_key value_text : string)
    (evs : list event) :
  uplink_opens e tls feed_key value_text ->
  complete (state (exec (run e evs) (opened_world e tls feed_key value_text))) = false ->
  armed 30 (exec (run e evs) (opened_world e tls feed_key value_text)).
Proof.
  intros (_ & _ & Hnew & Hdns & _) Hc.
  apply run_armed; [|exact Hc].
  apply (http_post_open_armed e "io.adafruit.com" (initial_world e tls feed_key value_text)).
  - reflexivity.
  - rewrite http_post_open_eval, Hnew. destruct Hdns as [-> | ->]; reflexivity.
Qed.

(** X14: on an uplink that is not complete, if only timer shots follow,
    [send_to_adafruit_io] returns false after at most 30 of them, with
    the error code PICO_ERROR_TIMEOUT and the handle closed: it does not
    wait for the deadline of its loop. *)
Theorem poll_timeout_fails_uplink
    (e : env) (tls : option altcp_tls_config) (feed_key value_text : string)
    (pre : list event) (rest : list step) :
  uplink_opens e tls feed_key value_text ->
  PICO_ERROR_TIMEOUT e <> 0 ->
  let w := exec (run e pre) (opened_world e tls feed_key value_text) in
  complete (state w) = false ->
  exists (n : nat) o st,
    (n <= 30)%nat /\
    send_to_adafruit_io e tls feed_key value_text
                        (map callback (pre ++ repeat ev_tick n) ++ rest) = Some o /\
    returned o = false /\
    freed_state o = Some st /\ complete st = true /\ pcb st = None /\
    error st = PICO_ERROR_TIMEOUT e /\
    trace o = calls w ++ teardown e.
Proof.
  intros Hopens Ht w Hc.
  destruct (opened_world_armed e tls feed_key value_text pre Hopens Hc)
    as (h & Hp & Hpoll & Hrange). fold w in Hp.
  set (n := Z.to_nat (30 - polltmr h)).
  assert (Hrun : exec (run e (pre ++ repeat ev_tick n)) (opened_world e tls feed_key value_text) =
                 mk_world (tls_config w)
                          (set_pcb None (set_complete true
                             (set_error (PICO_ERROR_TIMEOUT e) (state w))))
                          (calls w ++ teardown e)).
  { rewrite run_app. fold w. fold (ticks e n).
    apply (ticks_fire e 30 n w h Hp Hpoll); unfold n; lia. }
  exists n. do 2 eexists. split; [unfold n; lia|].
  rewrite (send_to_adafruit_io_completed e tls feed_key value_text _ rest Hopens)
    by (rewrite Hrun; reflexivity).
  rewrite Hrun. unfold outcome_of.
  cbn [state tls_config calls error set_pcb set_complete set_error].
  split; [reflexivity|]. cbn [returned freed_state trace].
  split; [apply Z.eqb_neq, Ht|]. repeat split.
Qed.

Lemma poll_timeout_fails_uplink_witness :
  uplink_opens default_env (Some 1) "bmp280-temp" "23.46" /\
  PICO_ERROR_TIMEOUT default_env <> 0 /\
  exists (n : nat) o st,
    (n <= 30)%nat /\
    send_to_adafruit_io default_env (Some 1) "bmp280-temp" "23.46"
      (map callback ([ev_dns_found (Some 7); ev_tick] ++ repeat ev_tick n) ++ [deadline])
    = Some o /\
    returned o = false /\
    freed_state o = Some st /\ complete st = true /\ pcb st = None /\
    error st = -2 /\
    trace o = calls (exec (run default_env [ev_dns_found (Some 7); ev_tick])
                          (opened_world default_env (Some 1) "bmp280-temp" "23.46"))
              ++ teardown default_env.
Proof.
  assert (Hopens : uplink_opens default_env (Some 1) "bmp280-temp" "23.46").
  { unfold uplink_opens. simpl.
    repeat split; try discriminate; try reflexivity. right. reflexivity. }
  assert (Ht : PICO_ERROR_TIMEOUT default_env <> 0) by (simpl; discriminate).
  split; [exact Hopens|]. split; [exact Ht|].
  apply (poll_timeout_fails_uplink default_env (Some 1) "bmp280-temp" "23.46"
           [ev_dns_found (Some 7); ev_tick] [deadline] Hopens Ht).
  reflexivity.
Defined.

(** X15: when [http_post_open] fails, [send_to_adafruit_io] returns false
    without entering its wait loop: if the handle cannot be created,
    nothing else is called; if name resolution fails at once, the handle
    is closed first, and the error code is still 0. *)
Theorem open_failure_returns_false
    (e : env) (tls : option altcp_tls_config) (feed_key value_text : string)
    (script : list step) :
  config_in_use e tls <> None ->
  calloc_ok e = true ->
  strlen (composed_message e feed_key value_text) < 512 ->
  tls_new_ok e = false \/ (dns_res e <> ERR_OK /\ dns_res e <> ERR_INPROGRESS) ->
  exists o st,
    send_to_adafruit_io e tls feed_key value_text script = Some o /\
    returned o = false /\
    freed_state o = Some st /\ pcb st = None /\ error st = 0 /\
    complete st = tls_new_ok e /\
    trace o = config_calls tls ++
              if tls_new_ok e
              then registration (config_in_use e tls) "io.adafruit.com" ++ teardown e
              else [altcp_tls_new (config_in_use e tls)].
Proof.
  intros Hconf Hcalloc Hfit Hfail.
  rewrite send_to_adafruit_io_checked.
  destruct (config_in_use e tls) as [c|] eqn:Hc; [|congruence].
  rewrite Hcalloc. cbn [negb]. cbv zeta.
  rewrite (request_too_long_fits _ Hfit), http_post_open_eval.
  unfold exec. rewrite http_post_open_exec.
  destruct (tls_new_ok e).
  - destruct Hfail as [Hf | [Hok Hin]]; [discriminate|].
    assert (E1 : is_ERR_OK (dns_res e) = false) by (destruct (dns_res e) eqn:?; try reflexivity; congruence).
    assert (E2 : is_ERR_INPROGRESS (dns_res e) = false) by (destruct (dns_res e) eqn:?; try reflexivity; congruence).
    rewrite E1, E2. cbn [andb orb negb snd]. cbv zeta.
    rewrite http_post_close_exec.
    cbn [initial_world tls_config state calls pcb set_pcb set_complete set_timeout
         set_http_request zeroed_state error complete timeout].
    rewrite Hc. change (uint8 (15 * 2)) with 30.
    do 2 eexists. split; [reflexivity|]. cbn [returned freed_state trace pcb error complete].
    repeat split. unfold registration. rewrite <- !app_assoc. reflexivity.
  - cbn [andb negb snd].
    cbn [initial_world tls_config state calls pcb set_pcb set_complete set_timeout
         set_http_request zeroed_state error complete timeout].
    rewrite Hc.
    do 2 eexists. split; [reflexivity|]. cbn [returned freed_state trace pcb error complete].
    repeat split.
Qed.

Lemma open_failure_returns_false_witness :
  let e := mk_env (-1) (-2) "your_username" "your_key"
                  (Some 1) true true ERR_VAL ERR_INPROGRESS ERR_OK ERR_OK in
  exists o st,
    send_to_adafruit_io e (Some 1) "bmp280-temp" "23.46" [] = Some o /\
    returned o = false /\
    freed_state o = Some st /\ pcb st = None /\ error st = 0 /\
    complete st = true /\
    trace o = registration (Some 1) "io.adafruit.com" ++ teardown e.
Proof.
  apply (open_failure_returns_false
           (mk_env (-1) (-2) "your_username" "your_key"
                   (Some 1) true true ERR_VAL ERR_INPROGRESS ERR_OK ERR_OK)
           (Some 1) "bmp280-temp" "23.46" []).
  - discriminate.
  - reflexivity.
  - reflexivity.
  - right. split; discriminate.
Defined.

(** X16: when the address is already known and the connect fails at
    once, [http_post_open] closes the handle and still reports the
    connection as opened: [send_to_adafruit_io] returns true without any
    callback. *)
Theorem immediate_connect_failure_reported_as_success
    (e : env) (tls : option altcp_tls_config) (feed_key value_text : string)
    (script : list step) :
  uplink_opens e tls feed_key value_text ->
  dns_res e = ERR_OK ->
  connect_res e <> ERR_OK -> connect_res e <> ERR_INPROGRESS ->
  exists o st,
    send_to_adafruit_io e tls feed_key value_text script = Some o /\
    returned o = true /\
    freed_state o = Some st /\ complete st = true /\ pcb st = None /\
    trace o = config_calls tls ++ registration (config_in_use e tls) "io.adafruit.com"
              ++ [altcp_connect 443] ++ teardown e.
Proof.
  intros Hopens Hdns Hc1 Hc2.
  rewrite (send_to_adafruit_io_opened _ _ _ _ _ Hopens).
  destruct Hopens as (_ & _ & Hnew & _ & _).
  unfold exec. rewrite http_post_open_exec, Hnew, Hdns. cbn [is_ERR_OK snd]. cbv zeta.
  rewrite http_post_connect_to_server_ip_exec. cbv zeta.
  assert (E1 : is_ERR_OK (connect_res e) = false)
    by (destruct (connect_res e) eqn:?; try reflexivity; congruence).
  assert (E2 : is_ERR_INPROGRESS (connect_res e) = false)
    by (destruct (connect_res e) eqn:?; try reflexivity; congruence).
  rewrite E1, E2. cbn [orb]. rewrite http_post_close_exec.
  rewrite wait_loop_complete by reflexivity.
  cbn [initial_world tls_config state calls pcb set_pcb set_complete set_timeout
       set_http_request zeroed_state error complete timeout].
  change (uint8 (15 * 2)) with 30.
  do 2 eexists. split; [reflexivity|]. cbn [returned freed_state trace pcb error complete].
  repeat split. unfold registration. rewrite <- !app_assoc. reflexivity.
Qed.

Lemma immediate_connect_failure_reported_as_success_witness :
  let e := mk_env (-1) (-2) "your_username" "your_key"
                  (Some 1) true true ERR_OK ERR_RTE ERR_OK ERR_OK in
  exists o st,
    send_to_adafruit_io e (Some 1) "bmp280-temp" "23.46" [] = Some o /\
    returned o = true /\
    freed_state o = Some st /\ complete st = true /\ pcb st = None /\
    trace o = registration (Some 1) "io.adafruit.com" ++ [altcp_connect 443] ++ teardown e.
Proof.
  apply (immediate_connect_failure_reported_as_success
           (mk_env (-1) (-2) "your_username" "your_key"
                   (Some 1) true true ERR_OK ERR_RTE ERR_OK ERR_OK)
           (Some 1) "bmp280-temp" "23.46" []).
  - unfold uplink_opens. simpl.
    repeat split; try discriminate; try reflexivity. left. reflexivity.
  - reflexivity.
  - discriminate.
  - discriminate.
Defined.

(** ** Received data *)

Lemma classify_status_first_12 (p : string) :
  classify_status (substring 0 12 p) = classify_status p.
Proof.
  unfold classify_status. rewrite !strncmp_substring by lia. reflexivity.
Qed.

(** X17: [http_post_recv] looks at the first 12 characters of a fragment
    and at nothing else: two non-empty fragments that start alike leave
    the same state; and it acknowledges the whole length of the
    fragment, also beyond the 511 characters it copies, and releases it,
    without completing the state. *)
Theorem http_post_recv_reads_twelve_characters (e : env) (p q : pbuf) (w : world) :
  substring 0 12 p = substring 0 12 q ->
  0 < tot_len p -> 0 < tot_len q ->
  state (exec (http_post_recv e (Some p)) w) = state (exec (http_post_recv e (Some q)) w) /\
  calls (exec (http_post_recv e (Some p)) w) =
  calls w ++ [altcp_recved (tot_len p); pbuf_free] /\
  complete (state (exec (http_post_recv e (Some p)) w)) = complete (state w) /\
  pcb (state (exec (http_post_recv e (Some p)) w)) = pcb (state w).
Proof.
  intros Hpq Hp Hq.
  rewrite !http_post_recv_data_exec.
  apply Z.gtb_lt in Hp, Hq. rewrite Hp, Hq.
  cbn [state calls].
  rewrite <- (classify_status_first_12 p), Hpq, classify_status_first_12.
  repeat split.
Qed.

Lemma http_post_recv_reads_twelve_characters_witness :
  let p := status_line 404 " Not Found" in
  let q := status_line 404 (replicate 600 "x"%char) in
  let w := mk_world (Some 1) zeroed_state [] in
  state (exec (http_post_recv default_env (Some p)) w) =
  state (exec (http_post_recv default_env (Some q)) w) /\
  calls (exec (http_post_recv default_env (Some q)) w) =
  calls w ++ [altcp_recved (tot_len q); pbuf_free] /\
  complete (state (exec (http_post_recv default_env (Some q)) w)) = complete (state w) /\
  pcb (state (exec (http_post_recv default_env (Some q)) w)) = pcb (state w).
Proof.
  intros p q w.
  destruct (http_post_recv_reads_twelve_characters default_env q p w)
    as (Hs & Hrest); [reflexivity | reflexivity | reflexivity |].
  split; [symmetry; exact Hs | exact Hrest].
Defined.

(** ** The size of the request *)

Lemma strlen_append (a b : string) : strlen (a ++ b) = strlen a + strlen b.
Proof.
  unfold strlen. induction a as [|c a IH]; [reflexivity|].
  cbn [append String.length]. rewrite !Nat2Z.inj_succ, IH. lia.
Qed.

Lemma strlen_json_text (value_text : string) :
  strlen (json_text value_text) = strlen value_text + 12.
Proof.
  unfold json_text. rewrite !strlen_append. unfold dquote, strlen. simpl String.length. lia.
Qed.

Lemma fmt_d_two_digits (n : Z) : 10 <= n <= 99 -> strlen (fmt_d n) = 2.
Proof.
  intros Hn.
  assert (Hall : forallb (fun k => strlen (fmt_d k) =? 2) (map Z.of_nat (seq 10 90)) = true)
    by (vm_compute; reflexivity).
  rewrite forallb_forall in Hall. apply Z.eqb_eq, Hall.
  apply in_map_iff. exists (Z.to_nat n). split; [lia|]. apply in_seq. lia.
Qed.

Lemma snprintf_fits (size : nat) (text : string) :
  Z.of_nat size <= INT_MAX ->
  strlen text < Z.of_nat size ->
  snprintf size text = (text, strlen text).
Proof.
  unfold snprintf, INT_MAX. intros Hs H.
  rewrite substring_0_ge by (unfold strlen in H; lia).
  destruct (strlen text <=? 2147483647) eqn:E; [reflexivity|].
  apply Z.leb_gt in E. lia.
Qed.

(** The body and the announced length when the JSON text fits its
    buffer. *)
Lemma composed_message_fits (e : env) (feed_key value_text : string) :
  strlen value_text <= 115 ->
  composed_message e feed_key value_text =
  request_text e feed_key (strlen (json_text value_text)) (json_text value_text).
Proof.
  pose proof (strlen_json_text value_text) as Hj.
  intros Hv. unfold composed_message.
  rewrite snprintf_fits by (unfold INT_MAX; simpl; lia). reflexivity.
Qed.

(** X18: when the rendering of the value has at most 115 characters, as
    every rendering of a [float] by [%.2f] has, the JSON text fits its
    buffer of 128 characters: the first [snprintf] returns it whole with
    its length, the length of the rendering plus 12, so the body of the
    request is the whole JSON text and the Content-Length header
    announces exactly the length of that body. *)
Theorem content_length_and_body (e : env) (feed_key value_text : string) :
  strlen value_text <= 115 ->
  snprintf 128 (json_text value_text) = (json_text value_text, strlen value_text + 12) /\
  composed_message e feed_key value_text =
  request_text e feed_key (strlen value_text + 12) (json_text value_text) /\
  strlen (json_text value_text) = strlen value_text + 12.
Proof.
  intros Hv.
  pose proof (strlen_json_text value_text) as Hj.
  split; [|split; [|exact Hj]].
  - rewrite snprintf_fits by (unfold INT_MAX; simpl; lia). rewrite Hj. reflexivity.
  - rewrite composed_message_fits by exact Hv. rewrite Hj. reflexivity.
Qed.

Lemma content_length_and_body_witness :
  strlen "23.46" <= 115 /\
  snprintf 128 (json_text "23.46") = (json_text "23.46", 17) /\
  composed_message default_env "bmp280-temp" "23.46" =
  request_text default_env "bmp280-temp" 17 (json_text "23.46") /\
  strlen (json_text "23.46") = 17.
Proof.
  assert (H : strlen "23.46" <= 115) by (vm_compute; discriminate).
  split; [exact H|].
  apply (content_length_and_body default_env "bmp280-temp" "23.46" H).
Defined.

(** X19: for a rendering of the value of at most 87 characters, the
    composed request has 157 characters plus the lengths of the user
    name, the feed key, the API key and the rendering; so the request is
    refused as too long exactly when those four lengths add up to 355 or
    more. *)
Theorem request_size_budget (e : env) (feed_key value_text : string) :
  strlen value_text <= 87 ->
  strlen (composed_message e feed_key value_text) =
  157 + strlen (ADAFRUIT_IO_USERNAME e) + strlen feed_key
      + strlen (ADAFRUIT_IO_KEY e) + strlen value_text /\
  (request_too_long (snd (snprintf 512 (composed_message e feed_key value_text))) = true <->
   355 <= strlen (ADAFRUIT_IO_USERNAME e) + strlen feed_key
          + strlen (ADAFRUIT_IO_KEY e) + strlen value_text).
Proof.
  intros Hv.
  pose proof (strlen_json_text value_text) as Hj.
  pose proof (strlen_nonneg value_text) as Hv0.
  assert (Hlen : strlen (composed_message e feed_key value_text) =
                 157 + strlen (ADAFRUIT_IO_USERNAME e) + strlen feed_key
                     + strlen (ADAFRUIT_IO_KEY e) + strlen value_text).
  { rewrite composed_message_fits by lia.
    unfold request_text. rewrite !strlen_append.
    rewrite fmt_d_two_digits by lia. rewrite Hj.
    unfold crlf, strlen. simpl String.length. lia. }
  split; [exact Hlen|].
  split.
  - intros Hlong.
    destruct (Z_lt_le_dec (strlen (composed_message e feed_key value_text)) 512) as [Hfit|Hbig];
      [rewrite (request_too_long_fits _ Hfit) in Hlong; discriminate | lia].
  - intros Hsum. apply request_too_long_oversize. lia.
Qed.

Lemma request_size_budget_witness :
  strlen "23.46" <= 87 /\
  strlen (composed_message default_env "bmp280-temp" "23.46") = 157 + 13 + 11 + 8 + 5.
Proof.
  assert (H : strlen "23.46" <= 87) by (vm_compute; discriminate).
  split; [exact H|].
  apply (proj1 (request_size_budget default_env "bmp280-temp" "23.46" H)).
Defined.
